(** * Borrower qualification metrics of PathFinder Pro

    A shallow embedding of [calculateBorrowerMetrics] (src/routes/api.js),
    the server-side qualification engine, and of the client-side
    [calculateEmployerIncome], [updatePropertyCalculations] and
    [calculateMaxPurchase] (src/public/js/app.js).

    Modelling choices:
    - JavaScript values read from a borrower record are [jsval]; JavaScript
      numbers are modelled as exact rationals [Q] (the claims are about the
      arithmetic formulas, not about IEEE rounding).
    - [parseFloat] is modelled on the decimal subset of its grammar
      (leading white space, optional sign, digits, optional fraction);
      exponents and the literal [Infinity] are outside the model.
    - The list fields of the record are taken after the JSON decoding that
      opens [calculateBorrowerMetrics] (arrays of records).
    - [Qdiv] by zero yields [0]; the only unguarded division of the source
      (by [1 - downPaymentPercent]) is noted where it occurs. *)

From Stdlib Require Import QArith Qpower Qminmax Qfield Qround Lqa Lia Arith String Ascii List Bool.
Import ListNotations.
Open Scope Q_scope.

(** ** JavaScript values *)

Inductive jsval : Type :=
| JUndefined
| JNull
| JBool (b : bool)
| JNum (q : Q)
| JStr (s : string).

(** JavaScript truthiness ([if (x)]). *)
Definition truthy (v : jsval) : bool :=
  match v with
  | JUndefined | JNull => false
  | JBool b => b
  | JNum q => negb (Qeq_bool q 0)
  | JStr s => negb (String.eqb s EmptyString)
  end.

(** Strict equality against a string literal ([x === 'lit']). *)
Definition js_str_eq (v : jsval) (lit : string) : bool :=
  match v with
  | JStr s => String.eqb s lit
  | _ => false
  end.

Definition is_space (c : ascii) : bool :=
  match nat_of_ascii c with
  | 32%nat | 9%nat | 10%nat | 11%nat | 12%nat | 13%nat => true
  | _ => false
  end.

Fixpoint skip_spaces (s : string) : string :=
  match s with
  | String c r => if is_space c then skip_spaces r else s
  | EmptyString => EmptyString
  end.

Definition digit_value (c : ascii) : option Z :=
  let n := nat_of_ascii c in
  if Nat.leb 48 n && Nat.leb n 57 then Some (Z.of_nat (n - 48)%nat) else None.

(** Longest prefix of decimal digits: its value, its length, the rest. *)
Fixpoint take_digits (s : string) (acc : Z) (len : nat) : Z * nat * string :=
  match s with
  | String c r =>
      match digit_value c with
      | Some d => take_digits r (acc * 10 + d)%Z (S len)
      | None => (acc, len, s)
      end
  | EmptyString => (acc, len, s)
  end.

Definition take_sign (s : string) : Z * string :=
  match s with
  | String "-"%char r => ((-1)%Z, r)
  | String "+"%char r => (1%Z, r)
  | _ => (1%Z, s)
  end.

(** [parseFloat] on a string: [None] is [NaN]. *)
Definition parse_decimal (s : string) : option Q :=
  let '(sg, s1) := take_sign (skip_spaces s) in
  let '(ip, ni, s2) := take_digits s1 0%Z 0%nat in
  match s2 with
  | String "."%char s3 =>
      let '(fp, nf, _) := take_digits s3 0%Z 0%nat in
      if Nat.eqb (ni + nf) 0 then None
      else Some (inject_Z sg * (inject_Z ip + inject_Z fp / inject_Z (10 ^ Z.of_nat nf)))
  | _ => if Nat.eqb ni 0 then None else Some (inject_Z sg * inject_Z ip)
  end.

(** [parseFloat(v)]: non-strings are converted with [String(v)] first;
    ["undefined"], ["null"], ["true"] and ["false"] all parse to [NaN]. *)
Definition parseFloat (v : jsval) : option Q :=
  match v with
  | JNum q => Some q
  | JStr s => parse_decimal s
  | _ => None
  end.

(** [parseFloat(v) || d]: [NaN] and [0] are falsy and give [d]. *)
Definition num_or (d : Q) (v : jsval) : Q :=
  match parseFloat v with
  | Some q => if Qeq_bool q 0 then d else q
  | None => d
  end.

Definition num0 (v : jsval) : Q := num_or 0 v.

(** ** Borrower record *)

Record employer : Type := mkEmployer {
  pay_type : jsval;
  annual_salary : jsval;
  hourly_rate : jsval;
  hours_per_week : jsval;
  overtime_monthly : jsval;
  bonus_monthly : jsval;
  commission_monthly : jsval;
  is_previous : jsval
}.

Record other_income_item : Type := mkIncome { monthly_amount : jsval }.

Record asset : Type := mkAsset { asset_type : jsval; balance : jsval }.

Record debt : Type := mkDebt { monthly_payment : jsval }.

Record borrower : Type := mkBorrower {
  has_coborrower : jsval;
  employers : list employer;
  other_income : list other_income_item;
  co_employers : list employer;
  co_other_income : list other_income_item;
  assets : list asset;
  debts : list debt;
  loan_purpose : jsval;
  purchase_price : jsval;
  down_payment_amount : jsval;
  property_value : jsval;
  current_loan_balance : jsval;
  cash_out_amount : jsval;
  interest_rate : jsval;
  property_taxes_annual : jsval;
  insurance_annual : jsval;
  hoa_monthly : jsval
}.

(** ** Server engine: [calculateBorrowerMetrics] (src/routes/api.js) *)

(** One iteration of the employer loop: base pay by pay type, then
    overtime, bonus and commission, each added to the accumulator. *)
Definition add_employer (acc : Q) (emp : employer) : Q :=
  let acc1 :=
    if js_str_eq (pay_type emp) "salary"
    then acc + num0 (annual_salary emp) / 12
    else acc + num0 (hourly_rate emp) * num0 (hours_per_week emp) * 4.333 in
  let acc2 := acc1 + num0 (overtime_monthly emp) in
  let acc3 := acc2 + num0 (bonus_monthly emp) in
  acc3 + num0 (commission_monthly emp).

Definition employment_income (emps : list employer) : Q :=
  fold_left add_employer emps 0.

Definition add_other_income (acc : Q) (inc : other_income_item) : Q :=
  acc + num0 (monthly_amount inc).

Definition other_income_total (incs : list other_income_item) : Q :=
  fold_left add_other_income incs 0.

(** [!['401(k)/IRA'].includes(asset.type)] *)
Definition is_liquid (a : asset) : bool :=
  negb (js_str_eq (asset_type a) "401(k)/IRA").

Definition add_asset (acc : Q * Q) (a : asset) : Q * Q :=
  let '(total, liquid) := acc in
  let bal := num0 (balance a) in
  (total + bal, if is_liquid a then liquid + bal else liquid).

Definition add_debt (acc : Q) (d : debt) : Q :=
  acc + num0 (monthly_payment d).

Definition numPayments : Z := 360.

(** The closure [calculateMaxPurchase] of [calculateBorrowerMetrics], with
    its captured variables as parameters.  When [downPaymentAmount] equals
    a positive [purchasePrice] the last division is by zero (JavaScript
    gives [Infinity]). *)
Definition calc_max_purchase (totalMonthlyIncome totalMonthlyDebts monthlyTaxes
    monthlyInsurance monthlyHOA monthlyRate purchasePrice downPaymentAmount
    targetDTI : Q) : Q :=
  if Qle_bool totalMonthlyIncome 0 then 0 else
  let maxTotalPayment := totalMonthlyIncome * targetDTI / 100 - totalMonthlyDebts in
  let maxPITI := maxTotalPayment in
  let maxPI := maxPITI - monthlyTaxes - monthlyInsurance - monthlyHOA in
  if Qle_bool maxPI 0 || Qle_bool monthlyRate 0 then 0 else
  let maxLoan := maxPI * ((1 + monthlyRate) ^ numPayments - 1)
                 / (monthlyRate * (1 + monthlyRate) ^ numPayments) in
  let downPaymentPercent :=
    if negb (Qle_bool purchasePrice 0) then downPaymentAmount / purchasePrice
    else 0.03 in
  maxLoan / (1 - downPaymentPercent).

Record metrics : Type := mkMetrics {
  monthlyEmploymentIncome : Q;
  coMonthlyEmploymentIncome : Q;
  monthlyOtherIncome : Q;
  coMonthlyOtherIncome : Q;
  totalMonthlyIncome : Q;
  annualIncome : Q;
  totalAssets : Q;
  liquidAssets : Q;
  totalMonthlyDebts : Q;
  currentDTI : Q;
  loanAmount : Q;
  ltv : Q;
  principalAndInterest : Q;
  monthlyTaxes : Q;
  monthlyInsurance : Q;
  monthlyHOA : Q;
  totalPITI : Q;
  frontEndDTI : Q;
  backEndDTI : Q;
  maxPurchase43 : Q;
  maxPurchase45 : Q;
  maxPurchase50 : Q;
  cashToClose : Q
}.

(** [x > 0] on numbers. *)
Definition Qpos_bool (x : Q) : bool := negb (Qle_bool x 0).

Definition calculateBorrowerMetrics (b : borrower) : metrics :=
  let mEmp := employment_income (employers b) in
  let coEmp :=
    if truthy (has_coborrower b) then employment_income (co_employers b) else 0 in
  let mOther := other_income_total (other_income b) in
  let coOther :=
    if truthy (has_coborrower b) then other_income_total (co_other_income b) else 0 in
  let totalInc := mEmp + coEmp + mOther + coOther in
  let '(tAssets, lAssets) := fold_left add_asset (assets b) (0, 0) in
  let tDebts := fold_left add_debt (debts b) 0 in
  let purchasePrice := num0 (purchase_price b) in
  let downPaymentAmount := num0 (down_payment_amount b) in
  let loan := purchasePrice - downPaymentAmount in
  let ltv' := if Qpos_bool purchasePrice then loan / purchasePrice * 100 else 0 in
  let interestRate := num_or 7.0 (interest_rate b) in
  let monthlyRate := interestRate / 100 / 12 in
  let pi :=
    if Qpos_bool loan && Qpos_bool monthlyRate
    then loan * (monthlyRate * (1 + monthlyRate) ^ numPayments)
         / ((1 + monthlyRate) ^ numPayments - 1)
    else 0 in
  let mTaxes := num0 (property_taxes_annual b) / 12 in
  let mIns := num0 (insurance_annual b) / 12 in
  let mHOA := num0 (hoa_monthly b) in
  let piti := pi + mTaxes + mIns + mHOA in
  let front := if Qpos_bool totalInc then piti / totalInc * 100 else 0 in
  let back := if Qpos_bool totalInc then (tDebts + piti) / totalInc * 100 else 0 in
  let cur := if Qpos_bool totalInc then tDebts / totalInc * 100 else 0 in
  let maxp := calc_max_purchase totalInc tDebts mTaxes mIns mHOA monthlyRate
                purchasePrice downPaymentAmount in
  let closingCosts := loan * 0.03 in
  let prepaidItems := (mTaxes + mIns) * 6 in
  {| monthlyEmploymentIncome := mEmp;
     coMonthlyEmploymentIncome := coEmp;
     monthlyOtherIncome := mOther;
     coMonthlyOtherIncome := coOther;
     totalMonthlyIncome := totalInc;
     annualIncome := totalInc * 12;
     totalAssets := tAssets;
     liquidAssets := lAssets;
     totalMonthlyDebts := tDebts;
     currentDTI := cur;
     loanAmount := loan;
     ltv := ltv';
     principalAndInterest := pi;
     monthlyTaxes := mTaxes;
     monthlyInsurance := mIns;
     monthlyHOA := mHOA;
     totalPITI := piti;
     frontEndDTI := front;
     backEndDTI := back;
     maxPurchase43 := maxp 43;
     maxPurchase45 := maxp 45;
     maxPurchase50 := maxp 50;
     cashToClose := downPaymentAmount + closingCosts + prepaidItems |}.

(** ** Client-side calculations (src/public/js/app.js) *)

(** [calculateEmployerIncome(emp)] *)
Definition calculateEmployerIncome (emp : employer) : Q :=
  let monthly :=
    if js_str_eq (pay_type emp) "salary"
    then num0 (annual_salary emp) / 12
    else num0 (hourly_rate emp) * num0 (hours_per_week emp) * 4.333 in
  let m1 := monthly + num0 (overtime_monthly emp) in
  let m2 := m1 + num0 (bonus_monthly emp) in
  m2 + num0 (commission_monthly emp).

(** The loan sizing of [updatePropertyCalculations]: the form fields it
    reads are parameters; the result is [(loanAmount, ltv)]. *)
Definition client_loan_sizing (loanPurpose : string)
    (property_value current_loan_balance cash_out_amount
     purchase_price down_payment_amount : jsval) : Q * Q :=
  if String.eqb loanPurpose "Refinance" then
    let propertyValue := num0 property_value in
    let loan := num0 current_loan_balance + num0 cash_out_amount in
    (loan, if Qpos_bool propertyValue then loan / propertyValue * 100 else 0)
  else
    let price := num0 purchase_price in
    let downPayment := num0 down_payment_amount in
    let loan := Qmax 0 (price - downPayment) in
    (loan, if Qpos_bool price then loan / price * 100 else 0).

(** [calculateMaxPurchase(monthlyIncome, monthlyDebts, targetDTI)]: the
    form fields it reads are parameters; the result is [(price, piti)]. *)
Definition client_calculateMaxPurchase (monthlyIncome monthlyDebts targetDTI : Q)
    (interest_rate property_taxes_annual insurance_annual hoa_monthly : jsval) : Q * Q :=
  if Qle_bool monthlyIncome 0 then (0, 0) else
  let rate := num_or 7.0 interest_rate in
  let taxesAnnual := num0 property_taxes_annual in
  let insuranceAnnual := num0 insurance_annual in
  let hoaMonthly := num0 hoa_monthly in
  let monthlyRate := rate / 100 / 12 in
  let maxTotalPayment := monthlyIncome * targetDTI / 100 - monthlyDebts in
  let mTaxes := taxesAnnual / 12 in
  let mIns := insuranceAnnual / 12 in
  let maxPI := maxTotalPayment - mTaxes - mIns - hoaMonthly in
  if Qle_bool maxPI 0 || Qle_bool monthlyRate 0 then (0, 0) else
  let maxLoan := maxPI * ((1 + monthlyRate) ^ numPayments - 1)
                 / (monthlyRate * (1 + monthlyRate) ^ numPayments) in
  let downPaymentPercent := 0.03 in
  let maxPrice := maxLoan / (1 - downPaymentPercent) in
  (maxPrice, maxPI + mTaxes + mIns + hoaMonthly).

(** ** Sample records *)

Definition no_employer : employer :=
  mkEmployer JUndefined JUndefined JUndefined JUndefined JUndefined JUndefined
    JUndefined JUndefined.

Definition salaried (salary : Q) (previous : bool) : employer :=
  mkEmployer (JStr "salary") (JNum salary) JUndefined JUndefined JUndefined
    JUndefined JUndefined (JBool previous).

Definition empty_borrower : borrower :=
  mkBorrower (JNum 0) [] [] [] [] [] [] (JStr "Purchase") JUndefined JUndefined
    JUndefined JUndefined JUndefined JUndefined JUndefined JUndefined JUndefined.

(** The end-to-end scenario: one current salaried employer at 84000 a
    year, one debt of 400 a month, a purchase of 350000 with 17500 down at
    6.5%, taxes 3000 and insurance 1200 a year. *)
Definition scenario : borrower :=
  mkBorrower (JNum 0) [salaried 84000 false] [] [] []
    [mkAsset (JStr "401(k)/IRA") (JStr "50000"); mkAsset (JStr "Savings") (JStr "20000")]
    [mkDebt (JStr "400")] (JStr "Purchase") (JStr "350000") (JStr "17500")
    JUndefined JUndefined JUndefined (JStr "6.5") (JStr "3000") (JStr "1200")
    (JStr "0").

(** Borrower-record updates used to state the claims. *)

Definition with_employers (b : borrower) (es : list employer) : borrower :=
  {| has_coborrower := has_coborrower b; employers := es;
     other_income := other_income b; co_employers := co_employers b;
     co_other_income := co_other_income b; assets := assets b; debts := debts b;
     loan_purpose := loan_purpose b; purchase_price := purchase_price b;
     down_payment_amount := down_payment_amount b;
     property_value := property_value b;
     current_loan_balance := current_loan_balance b;
     cash_out_amount := cash_out_amount b; interest_rate := interest_rate b;
     property_taxes_annual := property_taxes_annual b;
     insurance_annual := insurance_annual b; hoa_monthly := hoa_monthly b |}.

Definition with_coborrower (b : borrower) (flag : jsval)
    (ces : list employer) (cinc : list other_income_item) : borrower :=
  {| has_coborrower := flag; employers := employers b;
     other_income := other_income b; co_employers := ces;
     co_other_income := cinc; assets := assets b; debts := debts b;
     loan_purpose := loan_purpose b; purchase_price := purchase_price b;
     down_payment_amount := down_payment_amount b;
     property_value := property_value b;
     current_loan_balance := current_loan_balance b;
     cash_out_amount := cash_out_amount b; interest_rate := interest_rate b;
     property_taxes_annual := property_taxes_annual b;
     insurance_annual := insurance_annual b; hoa_monthly := hoa_monthly b |}.

(** Numeric top-level fields of the borrower record. *)
Inductive num_field : Type :=
| FPurchasePrice | FDownPayment | FPropertyValue | FCurrentLoanBalance
| FCashOut | FInterestRate | FTaxes | FInsurance | FHOA.

Definition set_field (b : borrower) (f : num_field) (v : jsval) : borrower :=
  let pick (g : bool) (x : jsval) := if g then v else x in
  {| has_coborrower := has_coborrower b; employers := employers b;
     other_income := other_income b; co_employers := co_employers b;
     co_other_income := co_other_income b; assets := assets b; debts := debts b;
     loan_purpose := loan_purpose b;
     purchase_price :=
       pick (match f with FPurchasePrice => true | _ => false end) (purchase_price b);
     down_payment_amount :=
       pick (match f with FDownPayment => true | _ => false end) (down_payment_amount b);
     property_value :=
       pick (match f with FPropertyValue => true | _ => false end) (property_value b);
     current_loan_balance :=
       pick (match f with FCurrentLoanBalance => true | _ => false end) (current_loan_balance b);
     cash_out_amount :=
       pick (match f with FCashOut => true | _ => false end) (cash_out_amount b);
     interest_rate :=
       pick (match f with FInterestRate => true | _ => false end) (interest_rate b);
     property_taxes_annual :=
       pick (match f with FTaxes => true | _ => false end) (property_taxes_annual b);
     insurance_annual :=
       pick (match f with FInsurance => true | _ => false end) (insurance_annual b);
     hoa_monthly := pick (match f with FHOA => true | _ => false end) (hoa_monthly b) |}.

(** Numeric fields of an employer record. *)
Inductive emp_field : Type :=
| EAnnualSalary | EHourlyRate | EHoursPerWeek | EOvertime | EBonus | ECommission.

Definition set_emp_field (e : employer) (f : emp_field) (v : jsval) : employer :=
  let pick (g : bool) (x : jsval) := if g then v else x in
  {| pay_type := pay_type e;
     annual_salary := pick (match f with EAnnualSalary => true | _ => false end) (annual_salary e);
     hourly_rate := pick (match f with EHourlyRate => true | _ => false end) (hourly_rate e);
     hours_per_week := pick (match f with EHoursPerWeek => true | _ => false end) (hours_per_week e);
     overtime_monthly := pick (match f with EOvertime => true | _ => false end) (overtime_monthly e);
     bonus_monthly := pick (match f with EBonus => true | _ => false end) (bonus_monthly e);
     commission_monthly :=
       pick (match f with ECommission => true | _ => false end) (commission_monthly e);
     is_previous := is_previous e |}.

(** Concrete snapshots. *)

(** A previous salaried employer at 120000 a year, and the same employer
    made current. *)
Definition previous_borrower : borrower :=
  with_employers empty_borrower [salaried 120000 true].

Definition current_borrower : borrower :=
  with_employers empty_borrower [salaried 120000 false].

(** A cash-out refinance: value 250000, balance 200000, cash out 10000. *)
Definition refinance_borrower : borrower :=
  mkBorrower (JNum 0) [salaried 120000 false] [] [] [] [] [] (JStr "Refinance")
    JUndefined JUndefined (JStr "250000") (JStr "200000") (JStr "10000")
    (JStr "7") JUndefined JUndefined JUndefined.

(** A purchase whose down payment exceeds the price. *)
Definition overpaid_borrower : borrower :=
  mkBorrower (JNum 0) [salaried 120000 false] [] [] [] [] [] (JStr "Purchase")
    (JStr "100000") (JStr "200000") JUndefined JUndefined JUndefined
    (JStr "7") JUndefined JUndefined JUndefined.

(** The end-to-end scenario with a down payment of exactly 3% of its
    350000 price. *)
Definition three_percent_scenario : borrower :=
  set_field scenario FDownPayment (JStr "10500").

(** The end-to-end scenario with no income at all. *)
Definition scenario_no_income : borrower := with_employers scenario [].

(** A 300000 purchase with no interest rate entered. *)
Definition rateless_borrower : borrower :=
  mkBorrower (JNum 0) [] [] [] [] [] [] (JStr "Purchase")
    (JStr "300000") JUndefined JUndefined JUndefined JUndefined
    JUndefined JUndefined JUndefined JUndefined.

(** A borrower with co-borrower data kept while the flag is off. *)
Definition coborrower_off : borrower :=
  mkBorrower (JNum 0) [salaried 60000 false] [mkIncome (JStr "500")]
    [salaried 48000 false] [mkIncome (JStr "250")] [] [] (JStr "Purchase")
    JUndefined JUndefined JUndefined JUndefined JUndefined JUndefined
    JUndefined JUndefined JUndefined.

(** A 300000 purchase at a stated interest rate of 0. *)
Definition zero_rate_borrower : borrower :=
  set_field rateless_borrower FInterestRate (JNum 0).

(** An employer whose pay type is misspelled, paid 25 an hour for 40
    hours a week with 200 of overtime. *)
Definition misspelled_employer : employer :=
  mkEmployer (JStr "Salary") (JStr "90000") (JStr "25") (JStr "40") (JStr "200")
    JUndefined JUndefined (JBool false).

(** ** Client-side income collection and totals (src/public/js/app.js) *)

(** A JavaScript object built by assignment: an association list where
    assigning an existing key replaces its value in place. *)
Definition js_object : Type := list (string * jsval).

Fixpoint obj_get (k : string) (o : js_object) : jsval :=
  match o with
  | [] => JUndefined
  | (k', v) :: r => if String.eqb k k' then v else obj_get k r
  end.

Fixpoint obj_set (k : string) (v : jsval) (o : js_object) : js_object :=
  match o with
  | [] => [(k, v)]
  | (k', v') :: r => if String.eqb k k' then (k', v) :: r else (k', v') :: obj_set k v r
  end.

(** The [.emp-field] inputs of an employer block. *)
Inductive emp_input : Type :=
| EmpCheckbox (field : string) (checked : bool)
| EmpText (field : string) (value : string).

(** [emp[input.dataset.field] = input.checked] or [= input.value]. *)
Definition read_emp_inputs (inputs : list emp_input) : js_object :=
  fold_left (fun emp i =>
               match i with
               | EmpCheckbox f c => obj_set f (JBool c) emp
               | EmpText f v => obj_set f (JStr v) emp
               end) inputs [].

(** One block of [collectEmployerData]: the inputs, the active pay-type
    button's value (if a button is active), then the legacy
    [annual_salary] derived from [salary_amount] and [salary_frequency]. *)
Definition collectEmployerBlock (inputs : list emp_input) (activePayType : option string)
    : js_object :=
  let emp0 := read_emp_inputs inputs in
  let emp := obj_set "pay_type"
               (JStr (match activePayType with Some v => v | None => "salary" end)) emp0 in
  if js_str_eq (obj_get "pay_type" emp) "salary" && truthy (obj_get "salary_amount" emp)
  then
    let amount := num0 (obj_get "salary_amount" emp) in
    let frequency :=
      if truthy (obj_get "salary_frequency" emp) then obj_get "salary_frequency" emp
      else JStr "annual" in
    if js_str_eq frequency "annual" then obj_set "annual_salary" (JNum amount) emp
    else if js_str_eq frequency "monthly" then obj_set "annual_salary" (JNum (amount * 12)) emp
    else if js_str_eq frequency "weekly" then obj_set "annual_salary" (JNum (amount * 52)) emp
    else emp
  else emp.

(** The fields of a collected object that the income functions read. *)
Definition employer_of_object (o : js_object) : employer :=
  mkEmployer (obj_get "pay_type" o) (obj_get "annual_salary" o) (obj_get "hourly_rate" o)
    (obj_get "hours_per_week" o) (obj_get "overtime_monthly" o) (obj_get "bonus_monthly" o)
    (obj_get "commission_monthly" o) (obj_get "is_previous" o).

(** [!emp.is_previous] *)
Definition is_current (emp : employer) : bool := negb (truthy (is_previous emp)).

(** [getMonthlyIncome]: one running total over the primary and co
    employers (current ones only) and the two other-income lists. *)
Definition getMonthlyIncome (primaryEmployers coEmployers : list employer)
    (primaryOther coOther : list other_income_item) : Q :=
  let add_current (total : Q) (emp : employer) :=
    if is_current emp then total + calculateEmployerIncome emp else total in
  let t1 := fold_left add_current primaryEmployers 0 in
  let t2 := fold_left add_current coEmployers t1 in
  let t3 := fold_left add_other_income primaryOther t2 in
  fold_left add_other_income coOther t3.

(** [calculateMaxPurchaseAdjusted] of the quick-adjustment panel; its
    arguments are numbers already parsed by the caller. *)
Definition calculateMaxPurchaseAdjusted (monthlyIncome monthlyDebts targetDTI rate
    taxesAnnual insuranceAnnual hoaMonthly downPaymentPct : Q) : Q * Q :=
  if Qle_bool monthlyIncome 0 then (0, 0) else
  let monthlyRate := rate / 100 / 12 in
  let maxTotalPayment := monthlyIncome * targetDTI / 100 - monthlyDebts in
  let mTaxes := taxesAnnual / 12 in
  let mIns := insuranceAnnual / 12 in
  let maxPI := maxTotalPayment - mTaxes - mIns - hoaMonthly in
  if Qle_bool maxPI 0 || Qle_bool monthlyRate 0 then (0, 0) else
  let maxLoan := maxPI * ((1 + monthlyRate) ^ numPayments - 1)
                 / (monthlyRate * (1 + monthlyRate) ^ numPayments) in
  let downPaymentDecimal := (if Qeq_bool downPaymentPct 0 then 3 else downPaymentPct) / 100 in
  let maxPrice := maxLoan / (1 - downPaymentDecimal) in
  (maxPrice, maxPI + mTaxes + mIns + hoaMonthly).

(** The salary branch of [updateEmployerMonthlyCalcs]: the monthly figure
    shown in an employer block from its amount and frequency inputs. *)
Definition salaryMonthlyCalc (salary_amount salary_frequency : jsval) : Q :=
  let amount := num0 salary_amount in
  let frequency := if truthy salary_frequency then salary_frequency else JStr "annual" in
  if js_str_eq frequency "annual" then amount / 12
  else if js_str_eq frequency "monthly" then amount
  else if js_str_eq frequency "weekly" then amount * 52 / 12
  else 0.

(** The figures [applyQuickAdjustments] writes to the summary card when a
    home price is entered. *)
Record quick_numbers : Type := mkQuickNumbers {
  qLoanAmount : Q;
  qLTV : Q;
  qTotalPITI : Q;
  qFrontDTI : Q;
  qBackDTI : Q;
  qCashToClose : Q
}.

Definition quickNumbers (homePrice downPaymentPct rate taxesAnnual hoiAnnual hoaMonthly
    monthlyIncome monthlyDebts : Q) : quick_numbers :=
  let downPaymentAmt := homePrice * (downPaymentPct / 100) in
  let loanAmount := homePrice - downPaymentAmt in
  let ltv := if Qpos_bool homePrice then loanAmount / homePrice * 100 else 0 in
  let monthlyRate := rate / 100 / 12 in
  let pi := if Qpos_bool loanAmount && Qpos_bool monthlyRate
            then loanAmount * (monthlyRate * (1 + monthlyRate) ^ numPayments)
                 / ((1 + monthlyRate) ^ numPayments - 1)
            else 0 in
  let monthlyTaxes := taxesAnnual / 12 in
  let monthlyInsurance := hoiAnnual / 12 in
  let totalPITI := pi + monthlyTaxes + monthlyInsurance + hoaMonthly in
  let frontDTI := if Qpos_bool monthlyIncome then totalPITI / monthlyIncome * 100 else 0 in
  let backDTI := if Qpos_bool monthlyIncome
                 then (monthlyDebts + totalPITI) / monthlyIncome * 100 else 0 in
  let closingCosts := loanAmount * 0.03 in
  mkQuickNumbers loanAmount ltv totalPITI frontDTI backDTI (downPaymentAmt + closingCosts).

(** ** XML escaping of the MISMO export (src/routes/api.js) *)

(** The double-quote character. *)
Definition dquote : ascii := ascii_of_nat 34.

(** [str.replace(/c/g, r)] for a one-character pattern [c]. *)
Fixpoint replace_all_char (c : ascii) (r : string) (s : string) : string :=
  match s with
  | EmptyString => EmptyString
  | String x t => if Ascii.eqb x c then (r ++ replace_all_char c r t)%string
                  else String x (replace_all_char c r t)
  end.

(** [escapeXml(str)] of src/routes/api.js: five global replacements, in
    the source's order. *)
Definition escapeXml (str : string) : string :=
  replace_all_char "'"%char "&apos;"
    (replace_all_char dquote "&quot;"
      (replace_all_char ">"%char "&gt;"
        (replace_all_char "<"%char "&lt;"
          (replace_all_char "&"%char "&amp;" str)))).

(** The entity a single character is written as. *)
Definition escape_char (x : ascii) : string :=
  if Ascii.eqb x "&"%char then "&amp;"
  else if Ascii.eqb x "<"%char then "&lt;"
  else if Ascii.eqb x ">"%char then "&gt;"
  else if Ascii.eqb x dquote then "&quot;"
  else if Ascii.eqb x "'"%char then "&apos;"
  else String x EmptyString.

(** A decoder for the five entities. *)
Fixpoint xml_unescape (s : string) : string :=
  match s with
  | EmptyString => EmptyString
  | String c r =>
      if Ascii.eqb c "&"%char then
        match r with
        | String "a" (String "m" (String "p" (String ";" r'))) =>
            String "&" (xml_unescape r')
        | String "l" (String "t" (String ";" r')) => String "<" (xml_unescape r')
        | String "g" (String "t" (String ";" r')) => String ">" (xml_unescape r')
        | String "q" (String "u" (String "o" (String "t" (String ";" r')))) =>
            String dquote (xml_unescape r')
        | String "a" (String "p" (String "o" (String "s" (String ";" r')))) =>
            String "'" (xml_unescape r')
        | _ => String c (xml_unescape r)
        end
      else String c (xml_unescape r)
  end.


(** [str.includes(c)] for one character. *)
Fixpoint str_has (c : ascii) (s : string) : bool :=
  match s with
  | EmptyString => false
  | String x t => Ascii.eqb x c || str_has c t
  end.

(** ** Currency display (src/public/js/app.js) *)

(** [Math.round(x)]: the nearest integer, halves rounded up. *)
Definition js_round (x : Q) : Z := Qfloor (x + (1 # 2)).

Definition digit_char (d : Z) : ascii := ascii_of_nat (48 + Z.to_nat d).

(** Decimal digits of [n >= 0], least significant first; [fuel] bounds
    their number. *)
Fixpoint rev_digits (fuel : nat) (n : Z) : list ascii :=
  match fuel with
  | O => []
  | S f => digit_char (n mod 10)
           :: (if Z.eqb (n / 10) 0 then [] else rev_digits f (n / 10))
  end.

(** A comma after every third digit, counted from the least significant
    one ([k] digits already in the current group). *)
Fixpoint group_rev (k : nat) (ds : list ascii) : list ascii :=
  match ds with
  | [] => []
  | d :: r => if Nat.eqb k 3 then ","%char :: d :: group_rev 1 r
              else d :: group_rev (S k) r
  end.

(** [n.toLocaleString()] for an integer [n], with the en-US grouping. *)
Definition toLocaleString_int (n : Z) : string :=
  let ds := string_of_list_ascii
              (rev (group_rev 0 (rev_digits (S (Z.to_nat (Z.abs n))) (Z.abs n)))) in
  if Z.ltb n 0 then String "-" ds else ds.

(** [formatCurrency(amount)] *)
Definition formatCurrency (amount : Q) : string :=
  String "$" (toLocaleString_int (js_round amount)).

(** [str.replace(/[$,]/g, '')] *)
Fixpoint strip_currency (s : string) : string :=
  match s with
  | EmptyString => EmptyString
  | String c t => if Ascii.eqb c "$"%char || Ascii.eqb c ","%char then strip_currency t
                  else String c (strip_currency t)
  end.

(** [parseCurrency(str)] *)
Definition parseCurrency (str : string) : Q := num0 (JStr (strip_currency str)).

Definition keep_char (c : ascii) : bool := negb (Ascii.eqb c "$"%char || Ascii.eqb c ","%char).

Definition is_digit_char (c : ascii) : Prop := exists d, (0 <= d < 10)%Z /\ c = digit_char d.

Definition digit_step (acc : Z) (c : ascii) : Z :=
  match digit_value c with Some d => (acc * 10 + d)%Z | None => acc end.

(** ** Sample inputs for the further properties *)

(** A 400000 purchase with 40000 down at 6.25%, one salaried employer at
    120000 a year and one debt of 500 a month. *)
Definition sample_purchase : borrower :=
  mkBorrower (JNum 0) [salaried 120000 false] [] [] [] [] [mkDebt (JStr "500")]
    (JStr "Purchase") (JStr "400000") (JStr "40000") JUndefined JUndefined JUndefined
    (JStr "6.25") (JStr "4800") (JStr "1500") (JStr "50").

(** An employer block with a monthly salary of 5000 and a bonus of 250. *)
Definition sample_salary_inputs : list emp_input :=
  [EmpText "salary_amount" "5000"; EmpText "salary_frequency" "monthly";
   EmpText "bonus_monthly" "250"].

(** A purchase of 200000 with 250000 entered as the down payment. *)
Definition overpaid_sample : borrower :=
  mkBorrower (JNum 0) [] [] [] [] [] [] (JStr "Purchase") (JStr "200000") (JStr "250000")
    JUndefined JUndefined JUndefined JUndefined JUndefined JUndefined JUndefined.

(** ** Unfolding lemmas for the fields of the result *)

Section Fields.
Variable b : borrower.

Let mRate := num_or 7.0 (interest_rate b) / 100 / 12.
Let price := num0 (purchase_price b).
Let down := num0 (down_payment_amount b).
Let coEmp := if truthy (has_coborrower b) then employment_income (co_employers b) else 0.
Let coOther := if truthy (has_coborrower b) then other_income_total (co_other_income b) else 0.
Let totalInc := employment_income (employers b) + coEmp
                + other_income_total (other_income b) + coOther.
Let tDebts := fold_left add_debt (debts b) 0.
Let mTaxes := num0 (property_taxes_annual b) / 12.
Let mIns := num0 (insurance_annual b) / 12.
Let mHOA := num0 (hoa_monthly b).

Ltac unfold_metrics :=
  unfold calculateBorrowerMetrics;
  destruct (fold_left add_asset (assets b) (0, 0)); reflexivity.

Lemma income_fields :
  monthlyEmploymentIncome (calculateBorrowerMetrics b) = employment_income (employers b) /\
  coMonthlyEmploymentIncome (calculateBorrowerMetrics b) = coEmp /\
  monthlyOtherIncome (calculateBorrowerMetrics b) = other_income_total (other_income b) /\
  coMonthlyOtherIncome (calculateBorrowerMetrics b) = coOther /\
  totalMonthlyIncome (calculateBorrowerMetrics b) = totalInc.
Proof. repeat split; unfold_metrics. Qed.

Lemma debt_field :
  totalMonthlyDebts (calculateBorrowerMetrics b) = tDebts.
Proof. unfold_metrics. Qed.

Lemma loan_fields :
  loanAmount (calculateBorrowerMetrics b) = price - down /\
  ltv (calculateBorrowerMetrics b) =
    (if Qpos_bool price then (price - down) / price * 100 else 0).
Proof. split; unfold_metrics. Qed.

Lemma pi_field :
  principalAndInterest (calculateBorrowerMetrics b) =
    (if Qpos_bool (price - down) && Qpos_bool mRate
     then (price - down) * (mRate * (1 + mRate) ^ numPayments)
          / ((1 + mRate) ^ numPayments - 1)
     else 0).
Proof. unfold_metrics. Qed.

Lemma dti_fields :
  currentDTI (calculateBorrowerMetrics b) =
    (if Qpos_bool totalInc then tDebts / totalInc * 100 else 0) /\
  frontEndDTI (calculateBorrowerMetrics b) =
    (if Qpos_bool totalInc then totalPITI (calculateBorrowerMetrics b) / totalInc * 100
     else 0) /\
  backEndDTI (calculateBorrowerMetrics b) =
    (if Qpos_bool totalInc
     then (tDebts + totalPITI (calculateBorrowerMetrics b)) / totalInc * 100 else 0).
Proof. repeat split; unfold_metrics. Qed.

Lemma max_purchase_fields :
  maxPurchase43 (calculateBorrowerMetrics b) =
    calc_max_purchase totalInc tDebts mTaxes mIns mHOA mRate price down 43 /\
  maxPurchase45 (calculateBorrowerMetrics b) =
    calc_max_purchase totalInc tDebts mTaxes mIns mHOA mRate price down 45 /\
  maxPurchase50 (calculateBorrowerMetrics b) =
    calc_max_purchase totalInc tDebts mTaxes mIns mHOA mRate price down 50.
Proof. repeat split; unfold_metrics. Qed.

End Fields.

(** ** Arithmetic of the payment formulas *)

Lemma Qle_bool_false (x y : Q) : Qle_bool x y = false -> y < x.
Proof.
  intros H. apply Qnot_le_lt. intros Hle. apply Qle_bool_iff in Hle. congruence.
Qed.

Lemma Qpos_bool_true (x : Q) : Qpos_bool x = true <-> 0 < x.
Proof.
  unfold Qpos_bool. split.
  - intros H. apply Qle_bool_false. destruct (Qle_bool x 0); [discriminate | reflexivity].
  - intros H. destruct (Qle_bool x 0) eqn:E; [| reflexivity].
    apply Qle_bool_iff in E. exfalso. apply (Qlt_not_le _ _ H E).
Qed.

Lemma Qpos_bool_false (x : Q) : Qpos_bool x = false <-> x <= 0.
Proof.
  unfold Qpos_bool. split.
  - intros H. apply Qle_bool_iff. destruct (Qle_bool x 0); [reflexivity | discriminate].
  - intros H. apply Qle_bool_iff in H. rewrite H. reflexivity.
Qed.

Lemma growth_gt_1 (r : Q) : 0 < r -> 1 < (1 + r) ^ numPayments.
Proof. intros Hr. apply Qpower_1_lt; [lra | reflexivity]. Qed.

(** The factor turning a monthly payment into a loan amount is positive. *)
Lemma loan_factor_pos (r : Q) : 0 < r ->
  0 < ((1 + r) ^ numPayments - 1) / (r * (1 + r) ^ numPayments).
Proof.
  intros Hr. pose proof (growth_gt_1 r Hr) as HX.
  unfold Qdiv. apply Qmult_lt_0_compat; [lra |].
  apply Qinv_lt_0_compat. nra.
Qed.

Lemma Qle_bool_pos (x : Q) : 0 < x -> Qle_bool x 0 = false.
Proof.
  intros H. destruct (Qle_bool x 0) eqn:E; [| reflexivity].
  apply Qle_bool_iff in E. exfalso. apply (Qlt_not_le _ _ H E).
Qed.

Lemma Qpos_bool_compat (x y : Q) : x == y -> Qpos_bool x = Qpos_bool y.
Proof.
  intros H. destruct (Qpos_bool y) eqn:E.
  - apply Qpos_bool_true. apply Qpos_bool_true in E. rewrite H. exact E.
  - apply Qpos_bool_false. apply Qpos_bool_false in E. rewrite H. exact E.
Qed.

(** The server's monthly principal and interest is positive for a positive
    loan and a positive monthly rate. *)
Lemma pi_pos (b : borrower) :
  0 < num0 (purchase_price b) - num0 (down_payment_amount b) ->
  0 < num_or 7.0 (interest_rate b) / 100 / 12 ->
  0 < principalAndInterest (calculateBorrowerMetrics b).
Proof.
  intros Hl Hr. rewrite pi_field. cbv zeta.
  rewrite (proj2 (Qpos_bool_true _) Hl), (proj2 (Qpos_bool_true _) Hr). cbn [andb].
  set (m := num_or 7.0 (interest_rate b) / 100 / 12) in *.
  set (L := num0 (purchase_price b) - num0 (down_payment_amount b)) in *.
  pose proof (growth_gt_1 m Hr) as HX.
  set (X := (1 + m) ^ numPayments) in *.
  unfold Qdiv. apply Qmult_lt_0_compat.
  - apply Qmult_lt_0_compat; [exact Hl | apply Qmult_lt_0_compat; lra].
  - apply Qinv_lt_0_compat. lra.
Qed.

(** Two records with the same loan and the same monthly rate have the same
    principal and interest. *)
Lemma pi_congr (b1 b2 : borrower) :
  num0 (purchase_price b1) - num0 (down_payment_amount b1) ==
  num0 (purchase_price b2) - num0 (down_payment_amount b2) ->
  num_or 7.0 (interest_rate b1) / 100 / 12 == num_or 7.0 (interest_rate b2) / 100 / 12 ->
  principalAndInterest (calculateBorrowerMetrics b1) ==
  principalAndInterest (calculateBorrowerMetrics b2).
Proof.
  intros Hl Hr. rewrite !pi_field. cbv zeta.
  rewrite (Qpos_bool_compat _ _ Hl), (Qpos_bool_compat _ _ Hr).
  destruct (_ && _); [| reflexivity].
  rewrite Hl, Hr. reflexivity.
Qed.

(** The server's maximum purchase price times the financed share of the
    price is the payment left for principal and interest times the loan
    factor of the monthly rate. *)
Lemma calc_max_purchase_eq (inc debts tx ins hoa r price down t : Q) :
  0 < inc -> 0 < inc * t / 100 - debts - tx - ins - hoa -> 0 < r ->
  Qeq_bool (1 - (if negb (Qle_bool price 0) then down / price else 0.03)) 0 = false ->
  calc_max_purchase inc debts tx ins hoa r price down t
    * (1 - (if negb (Qle_bool price 0) then down / price else 0.03))
  == (inc * t / 100 - debts - tx - ins - hoa)
     * (((1 + r) ^ numPayments - 1) / (r * (1 + r) ^ numPayments)).
Proof.
  intros Hi Hp Hr HD. unfold calc_max_purchase.
  rewrite (Qle_bool_pos inc Hi). cbn zeta.
  rewrite (Qle_bool_pos _ Hp), (Qle_bool_pos r Hr). cbn [orb].
  set (D := 1 - (if negb (Qle_bool price 0) then down / price else 0.03)) in *.
  assert (HD' : ~ D == 0) by (intros E; apply Qeq_bool_iff in E; congruence).
  pose proof (growth_gt_1 r Hr) as HX.
  set (X := (1 + r) ^ numPayments) in *.
  assert (HX0 : ~ X == 0) by lra.
  assert (HrX : ~ r * X == 0) by (intros E; nra).
  assert (Hr0 : ~ r == 0) by lra.
  field. repeat split; assumption.
Qed.

(** The same for the client [calculateMaxPurchase] and its fixed 3%. *)
Lemma client_max_purchase_eq (inc debts t : Q) (rate taxes ins hoa : jsval) :
  0 < inc ->
  0 < inc * t / 100 - debts - num0 taxes / 12 - num0 ins / 12 - num0 hoa ->
  0 < num_or 7.0 rate / 100 / 12 ->
  fst (client_calculateMaxPurchase inc debts t rate taxes ins hoa) * (1 - 0.03)
  == (inc * t / 100 - debts - num0 taxes / 12 - num0 ins / 12 - num0 hoa)
     * (((1 + num_or 7.0 rate / 100 / 12) ^ numPayments - 1)
        / (num_or 7.0 rate / 100 / 12 * (1 + num_or 7.0 rate / 100 / 12) ^ numPayments)).
Proof.
  intros Hi Hp Hr. unfold client_calculateMaxPurchase.
  rewrite (Qle_bool_pos inc Hi). cbn zeta.
  rewrite (Qle_bool_pos _ Hp), (Qle_bool_pos _ Hr). cbn [orb fst].
  set (r := num_or 7.0 rate / 100 / 12) in *.
  pose proof (growth_gt_1 r Hr) as HX.
  set (X := (1 + r) ^ numPayments) in *.
  assert (HX0 : ~ X == 0) by lra.
  assert (HrX : ~ r * X == 0) by (intros E; nra).
  assert (Hr0 : ~ r == 0) by lra.
  field. repeat split; assumption.
Qed.

(** ** Claims *)

(** Claim C1: a previous employer (is_previous = true) with salary 120000
    contributes 0 to monthlyEmploymentIncome, and clearing the flag adds
    10000.  The server loop never reads [is_previous]: the previous
    employer contributes 10000, and clearing the flag changes nothing. *)
Lemma previous_employer_counted :
  monthlyEmploymentIncome (calculateBorrowerMetrics previous_borrower) == 10000 /\
  monthlyEmploymentIncome (calculateBorrowerMetrics current_borrower) == 10000 /\
  monthlyEmploymentIncome (calculateBorrowerMetrics empty_borrower) == 0.
Proof. vm_compute; repeat split; reflexivity. Qed.

(** Claim C2: for a Refinance snapshot, loanAmount is
    currentLoanBalance + cashOutAmount and ltv is loanAmount /
    propertyValue * 100.  The server ignores [loan_purpose] and the
    refinance fields: on a cash-out refinance (value 250000, balance
    200000, cash out 10000, no purchase price) it reports a loan of 0 and
    an LTV of 0, where the client-side sizing gives 210000 and 84. *)
Lemma refinance_uses_purchase_fields :
  loanAmount (calculateBorrowerMetrics refinance_borrower) == 0 /\
  ltv (calculateBorrowerMetrics refinance_borrower) == 0 /\
  fst (client_loan_sizing "Refinance" (property_value refinance_borrower)
         (current_loan_balance refinance_borrower) (cash_out_amount refinance_borrower)
         (purchase_price refinance_borrower) (down_payment_amount refinance_borrower))
    == 210000 /\
  snd (client_loan_sizing "Refinance" (property_value refinance_borrower)
         (current_loan_balance refinance_borrower) (cash_out_amount refinance_borrower)
         (purchase_price refinance_borrower) (down_payment_amount refinance_borrower))
    == 84.
Proof. vm_compute; repeat split; reflexivity. Qed.

(** Claim C4: for a Purchase snapshot, loanAmount is
    max(0, purchasePrice - downPaymentAmount).  The server does not clamp:
    with price 100000 and 200000 down it reports a loan of -100000, where
    the client-side sizing clamps to 0. *)
Lemma purchase_loan_negative :
  loanAmount (calculateBorrowerMetrics overpaid_borrower) == -100000 /\
  fst (client_loan_sizing "Purchase" (property_value overpaid_borrower)
         (current_loan_balance overpaid_borrower) (cash_out_amount overpaid_borrower)
         (purchase_price overpaid_borrower) (down_payment_amount overpaid_borrower))
    == 0.
Proof. vm_compute; repeat split; reflexivity. Qed.

(** Claim C6: maxPurchase43 <= maxPurchase45 <= maxPurchase50, also when
    downPaymentAmount exceeds purchasePrice.  With price 100000 and
    200000 down the server divides by 1 - 2 = -1, so the tiers are
    negative and decrease: maxPurchase45 < maxPurchase43 < 0. *)
Lemma max_purchase_tiers_decrease :
  maxPurchase45 (calculateBorrowerMetrics overpaid_borrower)
    < maxPurchase43 (calculateBorrowerMetrics overpaid_borrower) /\
  maxPurchase43 (calculateBorrowerMetrics overpaid_borrower) < 0.
Proof.
  destruct (max_purchase_fields overpaid_borrower) as (H43 & H45 & _).
  cbv zeta in H43, H45. rewrite H43, H45.
  match goal with
  | |- calc_max_purchase ?i ?d ?tx ?ins ?hoa ?r ?p ?dn 45 < _ /\ _ =>
      pose proof (calc_max_purchase_eq i d tx ins hoa r p dn 45
                    ltac:(vm_compute; reflexivity) ltac:(vm_compute; reflexivity)
                    ltac:(vm_compute; reflexivity) ltac:(vm_compute; reflexivity)) as E45;
      pose proof (calc_max_purchase_eq i d tx ins hoa r p dn 43
                    ltac:(vm_compute; reflexivity) ltac:(vm_compute; reflexivity)
                    ltac:(vm_compute; reflexivity) ltac:(vm_compute; reflexivity)) as E43;
      pose proof (loan_factor_pos r ltac:(vm_compute; reflexivity)) as HF;
      assert (V45 : i * 45 / 100 - d - tx - ins - hoa == 4500) by (vm_compute; reflexivity);
      assert (V43 : i * 43 / 100 - d - tx - ins - hoa == 4300) by (vm_compute; reflexivity);
      assert (VD : 1 - (if negb (Qle_bool p 0) then dn / p else 0.03) == -1)
        by (vm_compute; reflexivity);
      rewrite V45, VD in E45; rewrite V43, VD in E43;
      set (F := ((1 + r) ^ numPayments - 1) / (r * (1 + r) ^ numPayments)) in *
  end.
  split; lra.
Qed.

(** The server closure and the client function compute the same price
    whenever the server falls back to the 3% down payment. *)
Lemma calc_max_purchase_fallback (inc debts targetDTI : Q)
    (rate taxes ins hoa price down : jsval) :
  Qle_bool (num0 price) 0 = true ->
  calc_max_purchase inc debts (num0 taxes / 12) (num0 ins / 12) (num0 hoa)
    (num_or 7.0 rate / 100 / 12) (num0 price) (num0 down) targetDTI =
  fst (client_calculateMaxPurchase inc debts targetDTI rate taxes ins hoa).
Proof.
  intros Hp. unfold calc_max_purchase, client_calculateMaxPurchase.
  rewrite Hp. cbn zeta.
  destruct (Qle_bool inc 0); [reflexivity |].
  destruct (_ || _); reflexivity.
Qed.

(** With a positive price and a down payment of exactly 3% of it, the
    server's down-payment share is the client's fixed 3%. *)
Lemma calc_max_purchase_three_percent (inc debts targetDTI : Q)
    (rate taxes ins hoa price down : jsval) :
  0 < num0 price -> num0 down == 0.03 * num0 price ->
  calc_max_purchase inc debts (num0 taxes / 12) (num0 ins / 12) (num0 hoa)
    (num_or 7.0 rate / 100 / 12) (num0 price) (num0 down) targetDTI ==
  fst (client_calculateMaxPurchase inc debts targetDTI rate taxes ins hoa).
Proof.
  intros Hp Hd. unfold calc_max_purchase, client_calculateMaxPurchase.
  rewrite (Qle_bool_pos _ Hp). cbn zeta.
  destruct (Qle_bool inc 0); [reflexivity |].
  destruct (_ || _); [reflexivity |]. cbn [negb fst].
  assert (E : num0 down / num0 price == 0.03).
  { rewrite Hd. field. intros Hz. lra. }
  rewrite E. reflexivity.
Qed.

(** Claim C3: the server tiers and the client [calculateMaxPurchase]
    agree on every identical input tuple.  They differ on the end-to-end
    scenario (price 350000, 17500 down): the server assumes the borrower's
    own 5% down payment, the client always assumes 3%. *)
Lemma max_purchase_client_server_differ :
  let m := calculateBorrowerMetrics scenario in
  ~ (maxPurchase43 m ==
     fst (client_calculateMaxPurchase (totalMonthlyIncome m) (totalMonthlyDebts m) 43
            (interest_rate scenario) (property_taxes_annual scenario)
            (insurance_annual scenario) (hoa_monthly scenario))).
Proof.
  cbv zeta. intros H.
  destruct (income_fields scenario) as (_ & _ & _ & _ & HI).
  rewrite HI, debt_field, (proj1 (max_purchase_fields scenario)) in H. cbv zeta in H.
  match type of H with
  | calc_max_purchase ?i ?d ?tx ?ins ?hoa ?r ?p ?dn 43 == fst (client_calculateMaxPurchase _ _ _ ?rt ?txs ?inss ?hoas) =>
      pose proof (calc_max_purchase_eq i d tx ins hoa r p dn 43
                    ltac:(vm_compute; reflexivity) ltac:(vm_compute; reflexivity)
                    ltac:(vm_compute; reflexivity) ltac:(vm_compute; reflexivity)) as E1;
      pose proof (client_max_purchase_eq i d 43 rt txs inss hoas
                    ltac:(vm_compute; reflexivity) ltac:(vm_compute; reflexivity)
                    ltac:(vm_compute; reflexivity)) as E2;
      pose proof (loan_factor_pos r ltac:(vm_compute; reflexivity)) as HF;
      assert (V1 : i * 43 / 100 - d - tx - ins - hoa == 2260) by (vm_compute; reflexivity);
      assert (V2 : i * 43 / 100 - d - num0 txs / 12 - num0 inss / 12 - num0 hoas == 2260)
        by (vm_compute; reflexivity);
      assert (VD : 1 - (if negb (Qle_bool p 0) then dn / p else 0.03) == 0.95)
        by (vm_compute; reflexivity);
      rewrite V1, VD in E1; rewrite V2 in E2;
      set (F := ((1 + r) ^ numPayments - 1) / (r * (1 + r) ^ numPayments)) in *
  end.
  lra.
Qed.

(** Claim C3 (amended): whenever the server's down-payment share is the
    client's fixed 3%, each of the three server tiers equals the price of
    the client [calculateMaxPurchase] on the same income, debts, rate,
    taxes, insurance and HOA.  This is the case when purchasePrice is not
    positive (missing, zero, negative or non-numeric), where the server
    falls back to 3%, and when a positive purchasePrice comes with a down
    payment of exactly 3% of it. *)
Theorem max_purchase_agrees_at_three_percent (b : borrower)
    (Hp : Qle_bool (num0 (purchase_price b)) 0 = true \/
          (0 < num0 (purchase_price b) /\
           num0 (down_payment_amount b) == 0.03 * num0 (purchase_price b))) :
  let m := calculateBorrowerMetrics b in
  let client t := fst (client_calculateMaxPurchase (totalMonthlyIncome m)
                         (totalMonthlyDebts m) t (interest_rate b)
                         (property_taxes_annual b) (insurance_annual b) (hoa_monthly b)) in
  maxPurchase43 m == client 43 /\ maxPurchase45 m == client 45 /\
  maxPurchase50 m == client 50.
Proof.
  cbv zeta.
  pose proof (income_fields b) as Hi. pose proof (debt_field b) as Hd.
  pose proof (max_purchase_fields b) as Hm. cbv zeta in Hi, Hd, Hm.
  destruct Hi as (_ & _ & _ & _ & Ht). destruct Hm as (H43 & H45 & H50).
  rewrite Ht, Hd, H43, H45, H50.
  destruct Hp as [Hp | [Hp Hdn]].
  - repeat split; rewrite calc_max_purchase_fallback by exact Hp; reflexivity.
  - repeat split; apply calc_max_purchase_three_percent; assumption.
Qed.

Lemma max_purchase_agrees_at_three_percent_witness :
  (Qle_bool (num0 (purchase_price three_percent_scenario)) 0 = true \/
   (0 < num0 (purchase_price three_percent_scenario) /\
    num0 (down_payment_amount three_percent_scenario) ==
    0.03 * num0 (purchase_price three_percent_scenario))) /\
  (let m := calculateBorrowerMetrics three_percent_scenario in
   let client t := fst (client_calculateMaxPurchase (totalMonthlyIncome m)
                          (totalMonthlyDebts m) t (interest_rate three_percent_scenario)
                          (property_taxes_annual three_percent_scenario)
                          (insurance_annual three_percent_scenario)
                          (hoa_monthly three_percent_scenario)) in
   maxPurchase43 m == client 43 /\ maxPurchase45 m == client 45 /\
   maxPurchase50 m == client 50).
Proof.
  assert (Hp : Qle_bool (num0 (purchase_price three_percent_scenario)) 0 = true \/
               (0 < num0 (purchase_price three_percent_scenario) /\
                num0 (down_payment_amount three_percent_scenario) ==
                0.03 * num0 (purchase_price three_percent_scenario)))
    by (right; split; vm_compute; reflexivity).
  exact (conj Hp (max_purchase_agrees_at_three_percent three_percent_scenario Hp)).
Defined.

(** ** Coercion of missing and non-numeric fields *)

Lemma num_or_nan (d : Q) (v : jsval) : parseFloat v = None -> num_or d v = d.
Proof. intros H. unfold num_or. rewrite H. reflexivity. Qed.

Lemma num0_zero : num0 (JNum 0) = 0.
Proof. reflexivity. Qed.

Lemma num_or_seven : num_or 7.0 (JNum 7.0) = 7.0.
Proof. reflexivity. Qed.

(** The server reads the top-level numeric fields only through [num0]
    (and the rate through [num_or 7.0]). *)
Lemma calculateBorrowerMetrics_ext (b1 b2 : borrower) :
  has_coborrower b1 = has_coborrower b2 ->
  employers b1 = employers b2 -> other_income b1 = other_income b2 ->
  co_employers b1 = co_employers b2 -> co_other_income b1 = co_other_income b2 ->
  assets b1 = assets b2 -> debts b1 = debts b2 ->
  num0 (purchase_price b1) = num0 (purchase_price b2) ->
  num0 (down_payment_amount b1) = num0 (down_payment_amount b2) ->
  num_or 7.0 (interest_rate b1) = num_or 7.0 (interest_rate b2) ->
  num0 (property_taxes_annual b1) = num0 (property_taxes_annual b2) ->
  num0 (insurance_annual b1) = num0 (insurance_annual b2) ->
  num0 (hoa_monthly b1) = num0 (hoa_monthly b2) ->
  calculateBorrowerMetrics b1 = calculateBorrowerMetrics b2.
Proof.
  intros E1 E2 E3 E4 E5 E6 E7 E8 E9 E10 E11 E12 E13.
  unfold calculateBorrowerMetrics.
  rewrite E1, E2, E3, E4, E5, E6, E7, E8, E9, E10, E11, E12, E13.
  reflexivity.
Qed.

(** Claim C5: every missing, null or non-numeric numeric field, the
    interest rate included, is coerced to 0.  The interest rate is not:
    with no rate entered, a 300000 loan still has a positive principal and
    interest, the same as at an explicit 7%. *)
Lemma missing_rate_defaults_to_seven :
  0 < principalAndInterest (calculateBorrowerMetrics rateless_borrower) /\
  principalAndInterest (calculateBorrowerMetrics rateless_borrower) ==
  principalAndInterest
    (calculateBorrowerMetrics (set_field rateless_borrower FInterestRate (JStr "7"))).
Proof.
  split.
  - apply pi_pos; vm_compute; reflexivity.
  - apply pi_congr; vm_compute; reflexivity.
Qed.

(** Claim C5 (amended): computeMetrics returns a record for every
    snapshot; a missing, null or non-numeric value ([parseFloat] gives
    NaN) in any numeric field gives the same result as 0 in that field,
    except the interest rate, where it gives the same result as 7.0, as
    does an explicit 0 rate (any value [parseFloat] reads as 0).
    This holds for the top-level fields and for the numeric fields of
    employers, other-income items, assets and debts. *)
Theorem nan_fields_coerced (b : borrower) (v : jsval)
    (Hnan : parseFloat v = None) :
  (forall f, f <> FInterestRate ->
     calculateBorrowerMetrics (set_field b f v) =
     calculateBorrowerMetrics (set_field b f (JNum 0))) /\
  calculateBorrowerMetrics (set_field b FInterestRate v) =
  calculateBorrowerMetrics (set_field b FInterestRate (JNum 7.0)) /\
  (forall acc e f,
     add_employer acc (set_emp_field e f v) = add_employer acc (set_emp_field e f (JNum 0))) /\
  (forall acc, add_other_income acc (mkIncome v) = add_other_income acc (mkIncome (JNum 0))) /\
  (forall acc t, add_asset acc (mkAsset t v) = add_asset acc (mkAsset t (JNum 0))) /\
  (forall acc, add_debt acc (mkDebt v) = add_debt acc (mkDebt (JNum 0))) /\
  (forall w q, parseFloat w = Some q -> q == 0 ->
     calculateBorrowerMetrics (set_field b FInterestRate w) =
     calculateBorrowerMetrics (set_field b FInterestRate (JNum 7.0))).
Proof.
  assert (H0 : num0 v = num0 (JNum 0)) by (unfold num0; rewrite num_or_nan by exact Hnan; reflexivity).
  assert (H7 : num_or 7.0 v = num_or 7.0 (JNum 7.0)) by (rewrite num_or_nan by exact Hnan; reflexivity).
  repeat split.
  - intros f Hf. apply calculateBorrowerMetrics_ext; try reflexivity;
      destruct f; cbn; try reflexivity; try exact H0; congruence.
  - apply calculateBorrowerMetrics_ext; try reflexivity; cbn; exact H7.
  - intros acc e f. unfold add_employer.
    destruct f; cbn [set_emp_field pay_type annual_salary hourly_rate hours_per_week
      overtime_monthly bonus_monthly commission_monthly]; rewrite H0; reflexivity.
  - intros acc. unfold add_other_income. cbn [monthly_amount]. rewrite H0. reflexivity.
  - intros [t l] a. unfold add_asset. cbn [balance]. rewrite H0. reflexivity.
  - intros acc. unfold add_debt. cbn [monthly_payment]. rewrite H0. reflexivity.
  - intros w q Hw Hq. apply calculateBorrowerMetrics_ext; try reflexivity; cbn.
    unfold num_or at 1. rewrite Hw. apply Qeq_bool_iff in Hq. rewrite Hq. reflexivity.
Qed.

Lemma nan_fields_coerced_witness :
  parseFloat (JStr "n/a") = None /\
  calculateBorrowerMetrics (set_field scenario FInterestRate (JStr "n/a")) =
  calculateBorrowerMetrics (set_field scenario FInterestRate (JNum 7.0)) /\
  calculateBorrowerMetrics (set_field scenario FInterestRate (JStr "0")) =
  calculateBorrowerMetrics (set_field scenario FInterestRate (JNum 7.0)).
Proof.
  pose proof (nan_fields_coerced scenario (JStr "n/a") eq_refl) as H.
  destruct H as (_ & H7 & _ & _ & _ & _ & Hz).
  split; [reflexivity | split; [exact H7 |]].
  apply (Hz (JStr "0") _ eq_refl). reflexivity.
Defined.

(** ** Income aggregation *)

(** Claim C7: with the four income lists empty, totalMonthlyIncome is 0,
    the three DTI ratios are 0 and the three max-purchase tiers are 0. *)
Theorem zero_income_safety (b : borrower)
    (H1 : employers b = []) (H2 : other_income b = [])
    (H3 : co_employers b = []) (H4 : co_other_income b = []) :
  let m := calculateBorrowerMetrics b in
  totalMonthlyIncome m == 0 /\ currentDTI m == 0 /\ frontEndDTI m == 0 /\
  backEndDTI m == 0 /\ maxPurchase43 m == 0 /\ maxPurchase45 m == 0 /\
  maxPurchase50 m == 0.
Proof.
  cbv zeta.
  pose proof (income_fields b) as Hi. pose proof (dti_fields b) as Hd.
  pose proof (max_purchase_fields b) as Hm. cbv zeta in Hi, Hd, Hm.
  destruct Hi as (_ & _ & _ & _ & Ht). destruct Hd as (Hc & Hf & Hb).
  destruct Hm as (H43 & H45 & H50).
  rewrite Ht, Hc, Hf, Hb, H43, H45, H50, H1, H2, H3, H4.
  unfold calc_max_purchase, employment_income, other_income_total.
  destruct (truthy (has_coborrower b)); cbn [fold_left];
    replace (Qpos_bool (0 + 0 + 0 + 0)) with false by reflexivity;
    replace (Qle_bool (0 + 0 + 0 + 0) 0) with true by reflexivity;
    repeat split; reflexivity.
Qed.

Lemma zero_income_safety_witness :
  employers scenario_no_income = [] /\ other_income scenario_no_income = [] /\
  co_employers scenario_no_income = [] /\ co_other_income scenario_no_income = [] /\
  (let m := calculateBorrowerMetrics scenario_no_income in
   totalMonthlyIncome m == 0 /\ currentDTI m == 0 /\ frontEndDTI m == 0 /\
   backEndDTI m == 0 /\ maxPurchase43 m == 0 /\ maxPurchase45 m == 0 /\
   maxPurchase50 m == 0).
Proof.
  refine (conj eq_refl (conj eq_refl (conj eq_refl (conj eq_refl _)))).
  exact (zero_income_safety scenario_no_income eq_refl eq_refl eq_refl eq_refl).
Defined.

(** Claim C8: with hasCoBorrower false the co-borrower lists are ignored
    (co incomes are 0 and the total is the same as with empty co-lists),
    and turning the flag on with the same co-data adds exactly the
    co-borrower's employment and other income to the total. *)
Theorem coborrower_gating (b : borrower)
    (Hoff : truthy (has_coborrower b) = false) :
  let m := calculateBorrowerMetrics b in
  coMonthlyEmploymentIncome m == 0 /\ coMonthlyOtherIncome m == 0 /\
  totalMonthlyIncome m ==
    totalMonthlyIncome (calculateBorrowerMetrics (with_coborrower b (has_coborrower b) [] [])) /\
  totalMonthlyIncome
    (calculateBorrowerMetrics
       (with_coborrower b (JBool true) (co_employers b) (co_other_income b))) ==
    totalMonthlyIncome m
    + (employment_income (co_employers b) + other_income_total (co_other_income b)).
Proof.
  cbv zeta.
  pose proof (income_fields b) as Hb.
  pose proof (income_fields (with_coborrower b (has_coborrower b) [] [])) as He.
  pose proof (income_fields
    (with_coborrower b (JBool true) (co_employers b) (co_other_income b))) as Hn.
  cbv zeta in Hb, He, Hn. cbn [with_coborrower has_coborrower employers other_income
    co_employers co_other_income truthy] in He, Hn.
  destruct Hb as (_ & Hce & _ & Hco & Ht). destruct He as (_ & _ & _ & _ & Hte).
  destruct Hn as (_ & _ & _ & _ & Htn).
  rewrite Hoff in Hce, Hco, Ht, Hte.
  rewrite Hce, Hco, Ht, Hte, Htn.
  repeat split; try reflexivity. ring.
Qed.

Lemma coborrower_gating_witness :
  truthy (has_coborrower coborrower_off) = false /\
  (let m := calculateBorrowerMetrics coborrower_off in
   coMonthlyEmploymentIncome m == 0 /\ coMonthlyOtherIncome m == 0 /\
   totalMonthlyIncome m ==
     totalMonthlyIncome
       (calculateBorrowerMetrics (with_coborrower coborrower_off (has_coborrower coborrower_off) [] [])) /\
   totalMonthlyIncome
     (calculateBorrowerMetrics
        (with_coborrower coborrower_off (JBool true) (co_employers coborrower_off)
           (co_other_income coborrower_off))) ==
     totalMonthlyIncome m
     + (employment_income (co_employers coborrower_off)
        + other_income_total (co_other_income coborrower_off))).
Proof.
  split.
  - reflexivity.
  - exact (coborrower_gating coborrower_off eq_refl).
Defined.

(** ** Amortization *)

(** Claim C9: principalAndInterest is loanAmount * (r * (1+r)^360) /
    ((1+r)^360 - 1) with r = interestRatePercent / 100 / 12 when
    loanAmount > 0 and r > 0, else 0.  A rate of 0 does not give r = 0:
    [parseFloat(rate) || 7.0] turns it into 7%, and a 300000 loan at a
    stated rate of 0 has a positive principal and interest. *)
Lemma zero_rate_still_amortized :
  interest_rate zero_rate_borrower = JNum 0 /\
  0 < loanAmount (calculateBorrowerMetrics zero_rate_borrower) /\
  ~ (principalAndInterest (calculateBorrowerMetrics zero_rate_borrower) == 0).
Proof.
  split; [reflexivity | split].
  - vm_compute. reflexivity.
  - intros H.
    assert (Hp : 0 < principalAndInterest (calculateBorrowerMetrics zero_rate_borrower))
      by (apply pi_pos; vm_compute; reflexivity).
    lra.
Qed.

(** Claim C9 (amended): with r = rate / 100 / 12, where rate is the
    parsed interest rate, or 7.0 when it is missing, non-numeric or 0,
    principalAndInterest is loanAmount * (r * (1+r)^360) / ((1+r)^360 - 1)
    when loanAmount > 0 and r > 0, and 0 otherwise. *)
Theorem principal_and_interest_formula (b : borrower) :
  let m := calculateBorrowerMetrics b in
  let monthlyRate := num_or 7.0 (interest_rate b) / 100 / 12 in
  principalAndInterest m =
    (if Qpos_bool (loanAmount m) && Qpos_bool monthlyRate
     then loanAmount m * (monthlyRate * (1 + monthlyRate) ^ numPayments)
          / ((1 + monthlyRate) ^ numPayments - 1)
     else 0).
Proof.
  cbv zeta.
  pose proof (pi_field b) as Hp. pose proof (loan_fields b) as Hl.
  cbv zeta in Hp, Hl. destruct Hl as [Hl _].
  rewrite Hp, Hl. reflexivity.
Qed.

(** Claim C10: an employer whose pay type is anything but the string
    "salary" is paid by the hourly formula hourlyRate * hoursPerWeek *
    4.333, plus overtime, bonus and commission; the base is 0 when the
    rate or the hours are absent.  The client [calculateEmployerIncome]
    does the same. *)
Theorem non_salary_pay_type_is_hourly (b : borrower) (e : employer)
    (Hpt : js_str_eq (pay_type e) "salary" = false) :
  monthlyEmploymentIncome
    (calculateBorrowerMetrics (with_employers b (employers b ++ [e]))) =
  monthlyEmploymentIncome (calculateBorrowerMetrics b)
    + num0 (hourly_rate e) * num0 (hours_per_week e) * 4.333
    + num0 (overtime_monthly e) + num0 (bonus_monthly e)
    + num0 (commission_monthly e) /\
  calculateEmployerIncome e =
    num0 (hourly_rate e) * num0 (hours_per_week e) * 4.333
    + num0 (overtime_monthly e) + num0 (bonus_monthly e)
    + num0 (commission_monthly e) /\
  (parseFloat (hourly_rate e) = None \/ parseFloat (hours_per_week e) = None ->
   num0 (hourly_rate e) * num0 (hours_per_week e) * 4.333 == 0).
Proof.
  pose proof (income_fields b) as Hb.
  pose proof (income_fields (with_employers b (employers b ++ [e]))) as Hn.
  cbv zeta in Hb, Hn. destruct Hb as [Hb _]. destruct Hn as [Hn _].
  rewrite Hb, Hn. cbn [with_employers employers].
  split; [| split].
  - unfold employment_income. rewrite fold_left_app. cbn [fold_left].
    unfold add_employer. rewrite Hpt. reflexivity.
  - unfold calculateEmployerIncome. rewrite Hpt. reflexivity.
  - unfold num0. intros [H | H]; rewrite (num_or_nan 0 _ H); ring.
Qed.

Lemma non_salary_pay_type_is_hourly_witness :
  js_str_eq (pay_type misspelled_employer) "salary" = false /\
  monthlyEmploymentIncome
    (calculateBorrowerMetrics (with_employers scenario (employers scenario ++ [misspelled_employer]))) =
  monthlyEmploymentIncome (calculateBorrowerMetrics scenario)
    + num0 (hourly_rate misspelled_employer) * num0 (hours_per_week misspelled_employer) * 4.333
    + num0 (overtime_monthly misspelled_employer) + num0 (bonus_monthly misspelled_employer)
    + num0 (commission_monthly misspelled_employer).
Proof.
  split.
  - reflexivity.
  - exact (proj1 (non_salary_pay_type_is_hourly scenario misspelled_employer eq_refl)).
Defined.

(** ** Further properties of the calculators *)

Lemma calc_max_purchase_mono (inc debts tx ins hoa r price down t1 t2 : Q) :
  (Qle_bool price 0 = true \/ down < price) -> t1 <= t2 ->
  0 <= calc_max_purchase inc debts tx ins hoa r price down t1 /\
  calc_max_purchase inc debts tx ins hoa r price down t1 <=
  calc_max_purchase inc debts tx ins hoa r price down t2.
Proof.
  intros Hd Ht. unfold calc_max_purchase.
  destruct (Qle_bool inc 0) eqn:Ei; [split; lra |].
  apply Qle_bool_false in Ei. cbn zeta.
  set (D := 1 - (if negb (Qle_bool price 0) then down / price else 0.03)).
  assert (HD : 0 < D).
  { unfold D. destruct (Qle_bool price 0) eqn:Ep; cbn [negb]; [lra |].
    apply Qle_bool_false in Ep. destruct Hd as [Hd | Hd]; [congruence |].
    assert (down / price < 1) by (apply Qlt_shift_div_r; lra). lra. }
  assert (Hp : inc * t1 / 100 - debts - tx - ins - hoa <= inc * t2 / 100 - debts - tx - ins - hoa).
  { assert (inc * t1 <= inc * t2) by nra.
    assert (inc * t1 / 100 <= inc * t2 / 100).
    { apply Qmult_le_compat_r; [assumption | apply Qinv_le_0_compat; lra]. }
    lra. }
  assert (Hnn : forall p, 0 < p -> 0 < r -> 0 <= p * ((1 + r) ^ numPayments - 1)
            / (r * (1 + r) ^ numPayments) / D).
  { intros p Hp0 Hr. pose proof (loan_factor_pos r Hr) as HK. unfold Qdiv in *.
    apply Qmult_le_0_compat; [| apply Qlt_le_weak, Qinv_lt_0_compat; exact HD].
    rewrite <- Qmult_assoc. apply Qmult_le_0_compat; lra. }
  destruct (Qle_bool (inc * t1 / 100 - debts - tx - ins - hoa) 0) eqn:E1;
  destruct (Qle_bool r 0) eqn:Er;
  destruct (Qle_bool (inc * t2 / 100 - debts - tx - ins - hoa) 0) eqn:E2;
  cbn [orb]; try (split; lra).
  - split; [lra |]. apply Hnn; apply Qle_bool_false; assumption.
  - apply Qle_bool_false in E1. apply Qle_bool_iff in E2. lra.
  - apply Qle_bool_false in E1. apply Qle_bool_false in Er.
    split; [apply Hnn; assumption |].
    pose proof (loan_factor_pos r Er) as HK. unfold Qdiv in *.
    assert (HiD : 0 < / D) by (apply Qinv_lt_0_compat; exact HD).
    rewrite <- !(Qmult_assoc _ ((1 + r) ^ numPayments - 1)).
    apply Qmult_le_compat_r; [| lra]. apply Qmult_le_compat_r; lra.
Qed.

Section MoreFields.
Variable b : borrower.

Ltac unfold_metrics' :=
  unfold calculateBorrowerMetrics;
  destruct (fold_left add_asset (assets b) (0, 0)); reflexivity.

Lemma piti_field :
  totalPITI (calculateBorrowerMetrics b) =
    principalAndInterest (calculateBorrowerMetrics b)
    + num0 (property_taxes_annual b) / 12 + num0 (insurance_annual b) / 12
    + num0 (hoa_monthly b).
Proof. unfold_metrics'. Qed.

Lemma asset_fields :
  (totalAssets (calculateBorrowerMetrics b), liquidAssets (calculateBorrowerMetrics b)) =
    fold_left add_asset (assets b) (0, 0).
Proof. unfold calculateBorrowerMetrics. destruct (fold_left add_asset (assets b) (0, 0)). reflexivity. Qed.

End MoreFields.

(** The three max-purchase tiers of the server are non-negative and
    increase with the DTI ceiling whenever the purchase price is not
    positive or the down payment is below it. *)
Theorem server_tiers_monotone (b : borrower)
    (Hd : Qle_bool (num0 (purchase_price b)) 0 = true
          \/ num0 (down_payment_amount b) < num0 (purchase_price b)) :
  let m := calculateBorrowerMetrics b in
  0 <= maxPurchase43 m /\ maxPurchase43 m <= maxPurchase45 m /\
  maxPurchase45 m <= maxPurchase50 m.
Proof.
  cbv zeta. pose proof (max_purchase_fields b) as Hm. cbv zeta in Hm.
  destruct Hm as (H43 & H45 & H50). rewrite H43, H45, H50.
  split; [| split].
  - apply (calc_max_purchase_mono _ _ _ _ _ _ _ _ 43 45 Hd). lra.
  - apply (calc_max_purchase_mono _ _ _ _ _ _ _ _ 43 45 Hd). lra.
  - apply (calc_max_purchase_mono _ _ _ _ _ _ _ _ 45 50 Hd). lra.
Qed.

(** The client max purchase price is non-negative and never decreases
    when the DTI ceiling rises. *)
Theorem client_max_purchase_monotone (inc debts t1 t2 : Q)
    (rate taxes ins hoa : jsval) (Ht : t1 <= t2) :
  0 <= fst (client_calculateMaxPurchase inc debts t1 rate taxes ins hoa) /\
  fst (client_calculateMaxPurchase inc debts t1 rate taxes ins hoa) <=
  fst (client_calculateMaxPurchase inc debts t2 rate taxes ins hoa).
Proof.
  rewrite <- !(calc_max_purchase_fallback inc debts _ rate taxes ins hoa JUndefined JUndefined)
    by reflexivity.
  apply calc_max_purchase_mono; [left; reflexivity | exact Ht].
Qed.

(** Back-end DTI is front-end DTI plus the current (debts-only) DTI. *)
Theorem back_end_dti_decomposes (b : borrower) :
  let m := calculateBorrowerMetrics b in
  backEndDTI m == frontEndDTI m + currentDTI m.
Proof.
  cbv zeta. pose proof (dti_fields b) as Hd. cbv zeta in Hd.
  destruct Hd as (Hc & Hf & Hb). rewrite Hc, Hf, Hb.
  match goal with |- context [Qpos_bool ?T] => destruct (Qpos_bool T) eqn:E end.
  - apply Qpos_bool_true in E. field. intros H. rewrite H in E. discriminate E.
  - reflexivity.
Qed.

Lemma num0_JNum_pos (q : Q) : 0 < q -> num0 (JNum q) = q.
Proof.
  intros Hq. unfold num0, num_or. cbn [parseFloat].
  destruct (Qeq_bool q 0) eqn:E; [| reflexivity].
  apply Qeq_bool_iff in E. rewrite E in Hq. discriminate Hq.
Qed.

(** Buying at a client max-purchase price with the assumed 3% down
    payment gives, on the server, exactly the PITI the client shows for
    that tier: the client inverts the server's amortization formula. *)
Theorem max_price_piti_roundtrip (b : borrower) (inc debts t : Q)
    (Hpos : 0 < fst (client_calculateMaxPurchase inc debts t (interest_rate b)
                       (property_taxes_annual b) (insurance_annual b) (hoa_monthly b))) :
  let price := fst (client_calculateMaxPurchase inc debts t (interest_rate b)
                      (property_taxes_annual b) (insurance_annual b) (hoa_monthly b)) in
  let bought := set_field (set_field b FPurchasePrice (JNum price))
                  FDownPayment (JNum (price * 0.03)) in
  totalPITI (calculateBorrowerMetrics bought) ==
  snd (client_calculateMaxPurchase inc debts t (interest_rate b)
         (property_taxes_annual b) (insurance_annual b) (hoa_monthly b)).
Proof.
  cbv zeta. unfold client_calculateMaxPurchase in *.
  destruct (Qle_bool inc 0); [discriminate Hpos |].
  cbn zeta in *.
  set (r := num_or 7.0 (interest_rate b) / 100 / 12) in *.
  set (p := inc * t / 100 - debts - num0 (property_taxes_annual b) / 12
            - num0 (insurance_annual b) / 12 - num0 (hoa_monthly b)) in *.
  destruct (Qle_bool p 0 || Qle_bool r 0) eqn:Ec; [discriminate Hpos |].
  apply orb_false_iff in Ec. destruct Ec as [Ep Er].
  apply Qle_bool_false in Ep, Er. cbn [fst snd] in *.
  set (X := (1 + r) ^ numPayments) in *.
  set (price := p * (X - 1) / (r * X) / (1 - 0.03)) in *.
  rewrite piti_field, pi_field. cbv zeta.
  cbn [set_field purchase_price down_payment_amount interest_rate
       property_taxes_annual insurance_annual hoa_monthly].
  fold r. fold X.
  rewrite (num0_JNum_pos price Hpos), (num0_JNum_pos (price * 0.03)) by lra.
  replace (Qpos_bool (price - price * 0.03)) with true
    by (symmetry; apply Qpos_bool_true; lra).
  replace (Qpos_bool r) with true by (symmetry; apply Qpos_bool_true; lra).
  cbn [andb].
  pose proof (growth_gt_1 r Er) as HX. fold X in HX.
  unfold price. field.
  repeat split; intros H; [| |]; lra.
Qed.

(** With a positive loan and a positive monthly rate, the monthly
    principal and interest is more than the first month's interest
    alone (the loan amortizes). *)
Theorem payment_exceeds_interest (b : borrower)
    (Hl : 0 < loanAmount (calculateBorrowerMetrics b))
    (Hr : 0 < num_or 7.0 (interest_rate b) / 100 / 12) :
  loanAmount (calculateBorrowerMetrics b) * (num_or 7.0 (interest_rate b) / 100 / 12)
  < principalAndInterest (calculateBorrowerMetrics b).
Proof.
  pose proof (pi_field b) as Hp. pose proof (loan_fields b) as Hlf.
  cbv zeta in Hp, Hlf. destruct Hlf as [Hlf _]. rewrite Hlf in *. rewrite Hp.
  set (r := num_or 7.0 (interest_rate b) / 100 / 12) in *.
  set (L := num0 (purchase_price b) - num0 (down_payment_amount b)) in *.
  replace (Qpos_bool L) with true by (symmetry; apply Qpos_bool_true; exact Hl).
  replace (Qpos_bool r) with true by (symmetry; apply Qpos_bool_true; exact Hr).
  cbn [andb].
  pose proof (growth_gt_1 r Hr) as HX. set (X := (1 + r) ^ numPayments) in *.
  assert (E : L * (r * X) / (X - 1) == L * r + L * r * / (X - 1)).
  { field. intros H. lra. }
  rewrite E.
  assert (0 < L * r * / (X - 1)).
  { apply Qmult_lt_0_compat; [nra | apply Qinv_lt_0_compat; lra]. }
  lra.
Qed.

Lemma add_asset_shift (l : list asset) (t q : Q) :
  fst (fold_left add_asset l (t, q)) == t + fst (fold_left add_asset l (0, 0)) /\
  snd (fold_left add_asset l (t, q)) == q + snd (fold_left add_asset l (0, 0)).
Proof.
  revert t q. induction l as [| a l IH]; intros t q; cbn [fold_left].
  - cbn [fst snd]. split; lra.
  - unfold add_asset at 1 3.
    destruct (IH (t + num0 (balance a)) (if is_liquid a then q + num0 (balance a) else q))
      as [H1 H2].
    destruct (IH (0 + num0 (balance a)) (if is_liquid a then 0 + num0 (balance a) else 0))
      as [H3 H4].
    rewrite H1, H2, H3, H4. destruct (is_liquid a); split; lra.
Qed.

(** Total assets are the liquid assets plus the balances of the
    "401(k)/IRA" accounts, and the liquid assets are the total of the
    other accounts. *)
Theorem assets_split (b : borrower) :
  let m := calculateBorrowerMetrics b in
  totalAssets m ==
    liquidAssets m
    + fst (fold_left add_asset (filter (fun a => negb (is_liquid a)) (assets b)) (0, 0)) /\
  liquidAssets m == fst (fold_left add_asset (filter is_liquid (assets b)) (0, 0)).
Proof.
  cbv zeta. pose proof (asset_fields b) as Ha.
  destruct (fold_left add_asset (assets b) (0, 0)) as [t l] eqn:E.
  injection Ha as Ht Hl. rewrite Ht, Hl.
  clear Ht Hl. revert t l E. induction (assets b) as [| a rest IH]; intros t l E.
  - cbn in E. injection E as <- <-. cbn. split; reflexivity.
  - cbn [fold_left filter] in *.
    change (add_asset (0, 0) a) with
      (0 + num0 (balance a), if is_liquid a then 0 + num0 (balance a) else 0) in E.
    destruct (add_asset_shift rest (0 + num0 (balance a))
                (if is_liquid a then 0 + num0 (balance a) else 0)) as [S1 S2].
    rewrite E in S1, S2. cbn [fst snd] in S1, S2.
    destruct (fold_left add_asset rest (0, 0)) as [t' l'] eqn:E'.
    destruct (IH t' l' eq_refl) as [I1 I2]. cbn [fst snd] in S1, S2.
    destruct (is_liquid a) eqn:La; cbn [negb fold_left].
    + change (add_asset (0, 0) a) with
        (0 + num0 (balance a), if is_liquid a then 0 + num0 (balance a) else 0).
      rewrite La.
      destruct (add_asset_shift (filter is_liquid rest) (0 + num0 (balance a))
                  (0 + num0 (balance a))) as [S3 _].
      split; lra.
    + change (add_asset (0, 0) a) with
        (0 + num0 (balance a), if is_liquid a then 0 + num0 (balance a) else 0).
      rewrite La.
      destruct (add_asset_shift (filter (fun a0 => negb (is_liquid a0)) rest)
                  (0 + num0 (balance a)) 0) as [S3 _].
      split; lra.
Qed.

(** For a positive purchase price, the LTV and the down payment as a
    percentage of the price add up to 100. *)
Theorem ltv_plus_down_share (b : borrower) (Hp : 0 < num0 (purchase_price b)) :
  ltv (calculateBorrowerMetrics b)
  + num0 (down_payment_amount b) / num0 (purchase_price b) * 100 == 100.
Proof.
  pose proof (loan_fields b) as Hl. cbv zeta in Hl. destruct Hl as [_ Hl]. rewrite Hl.
  replace (Qpos_bool (num0 (purchase_price b))) with true
    by (symmetry; apply Qpos_bool_true; exact Hp).
  field. intros H. rewrite H in Hp. discriminate Hp.
Qed.

Lemma add_employer_income (acc : Q) (e : employer) :
  add_employer acc e == acc + calculateEmployerIncome e.
Proof.
  unfold add_employer, calculateEmployerIncome.
  destruct (js_str_eq (pay_type e) "salary"); ring.
Qed.

Lemma employment_income_shift (l : list employer) (acc : Q) :
  fold_left add_employer l acc == acc + employment_income l.
Proof.
  unfold employment_income. revert acc. induction l as [| e l IH]; intros acc; cbn [fold_left].
  - ring.
  - rewrite (IH (add_employer acc e)), (IH (add_employer 0 e)).
    rewrite !add_employer_income. ring.
Qed.

Lemma other_income_shift (l : list other_income_item) (acc : Q) :
  fold_left add_other_income l acc == acc + other_income_total l.
Proof.
  unfold other_income_total. revert acc. induction l as [| i l IH]; intros acc; cbn [fold_left].
  - ring.
  - rewrite (IH (add_other_income acc i)), (IH (add_other_income 0 i)).
    unfold add_other_income. ring.
Qed.

Lemma current_income_shift (l : list employer) (acc : Q) :
  fold_left (fun total emp =>
               if is_current emp then total + calculateEmployerIncome emp else total) l acc
  == acc + employment_income (filter is_current l).
Proof.
  revert acc. induction l as [| e l IH]; intros acc; cbn [fold_left filter].
  - unfold employment_income. cbn. ring.
  - destruct (is_current e).
    + rewrite IH.
      change (employment_income (e :: filter is_current l))
        with (fold_left add_employer (filter is_current l) (add_employer 0 e)).
      rewrite employment_income_shift, add_employer_income. ring.
    + rewrite IH. reflexivity.
Qed.

(** The client's total monthly income equals the server's total for the
    same lists once previous employers are dropped and the co-borrower
    is counted: the client always counts the co-borrower blocks and skips
    previous employers, the server gates on [has_coborrower] and keeps
    previous employers. *)
Theorem client_income_matches_server (b : borrower) :
  getMonthlyIncome (employers b) (co_employers b) (other_income b) (co_other_income b) ==
  totalMonthlyIncome
    (calculateBorrowerMetrics
       (with_coborrower (with_employers b (filter is_current (employers b))) (JBool true)
          (filter is_current (co_employers b)) (co_other_income b))).
Proof.
  pose proof (income_fields (with_coborrower (with_employers b (filter is_current (employers b)))
     (JBool true) (filter is_current (co_employers b)) (co_other_income b))) as Hi.
  cbv zeta in Hi. destruct Hi as (_ & _ & _ & _ & Ht). rewrite Ht.
  cbn [with_coborrower with_employers has_coborrower employers other_income co_employers
       co_other_income truthy].
  unfold getMonthlyIncome. cbv zeta.
  rewrite other_income_shift, other_income_shift, current_income_shift, current_income_shift.
  ring.
Qed.

Lemma obj_get_set_same (k : string) (v : jsval) (o : js_object) :
  obj_get k (obj_set k v o) = v.
Proof.
  induction o as [| [k' v'] o IH]; cbn.
  - rewrite String.eqb_refl. reflexivity.
  - destruct (String.eqb k k') eqn:E; cbn; rewrite E; [reflexivity | exact IH].
Qed.

Lemma obj_get_set_other (k k2 : string) (v : jsval) (o : js_object) :
  String.eqb k k2 = false -> obj_get k (obj_set k2 v o) = obj_get k o.
Proof.
  intros Hk. induction o as [| [k' v'] o IH]; cbn.
  - rewrite Hk. reflexivity.
  - destruct (String.eqb k2 k') eqn:E; cbn.
    + apply String.eqb_eq in E. subst k'. rewrite Hk. reflexivity.
    + destruct (String.eqb k k'); [reflexivity | exact IH].
Qed.

(** A salaried employer block entered as an amount and a frequency is
    normalized so that [calculateEmployerIncome] sees its monthly
    equivalent: the amount itself for "monthly", amount * 52 / 12 for
    "weekly", amount / 12 for "annual" or no frequency; overtime, bonus
    and commission are added as entered.  A block with no active pay-type
    button counts as salaried. *)
Lemma salary_block_cases (inputs : list emp_input) (active : option string)
    (a : string)
    (Hact : active = None \/ active = Some "salary"%string)
    (Ha : obj_get "salary_amount" (read_emp_inputs inputs) = JStr a)
    (Hne : a <> EmptyString) :
  let income := calculateEmployerIncome
                  (employer_of_object (collectEmployerBlock inputs active)) in
  let field (k : string) := num0 (obj_get k (read_emp_inputs inputs)) in
  let extras := field "overtime_monthly"%string + field "bonus_monthly"%string
                + field "commission_monthly"%string in
  let freq := obj_get "salary_frequency" (read_emp_inputs inputs) in
  (freq = JStr "monthly" -> income == num0 (JStr a) + extras) /\
  (freq = JStr "weekly" -> income == num0 (JStr a) * 52 / 12 + extras) /\
  (freq = JStr "annual" \/ freq = JUndefined \/ freq = JStr EmptyString ->
   income == num0 (JStr a) / 12 + extras).
Proof.
  cbv zeta.
  assert (Hpt : JStr (match active with Some v => v | None => "salary" end) = JStr "salary")
    by (destruct Hact as [-> | ->]; reflexivity).
  unfold collectEmployerBlock. cbv zeta. rewrite Hpt.
  set (o := read_emp_inputs inputs) in *.
  rewrite obj_get_set_same.
  rewrite (obj_get_set_other "salary_amount" "pay_type") by reflexivity. rewrite Ha.
  assert (Ht : truthy (JStr a) = true).
  { cbn. destruct (String.eqb a EmptyString) eqn:E; [| reflexivity].
    apply String.eqb_eq in E. contradiction. }
  replace (js_str_eq (JStr "salary") "salary") with true by reflexivity.
  rewrite Ht. cbv [andb].
  rewrite (obj_get_set_other "salary_frequency" "pay_type") by reflexivity.
  assert (Hget : forall v k, String.eqb k "annual_salary" = false ->
            String.eqb k "pay_type" = false ->
            obj_get k (obj_set "annual_salary" v (obj_set "pay_type" (JStr "salary") o))
            = obj_get k o).
  { intros v k H1 H2. rewrite obj_get_set_other by exact H1.
    rewrite obj_get_set_other by exact H2. reflexivity. }
  assert (Hpay : forall v, obj_get "pay_type"
            (obj_set "annual_salary" v (obj_set "pay_type" (JStr "salary") o)) = JStr "salary").
  { intros v. rewrite obj_get_set_other by reflexivity. apply obj_get_set_same. }
  unfold employer_of_object, calculateEmployerIncome.
  cbn [pay_type annual_salary overtime_monthly bonus_monthly commission_monthly].
  assert (Hn : forall q, num0 (JNum q) = if Qeq_bool q 0 then 0 else q) by reflexivity.
  assert (Hs : js_str_eq (JStr "salary") "salary" = true) by reflexivity.
  split; [| split].
  - intros Hf. rewrite Hf.
    replace (truthy (JStr "monthly")) with true by reflexivity.
    replace (js_str_eq (JStr "monthly") "annual") with false by reflexivity.
    replace (js_str_eq (JStr "monthly") "monthly") with true by reflexivity.
    cbv beta iota.
    rewrite Hpay, obj_get_set_same, !Hget by reflexivity. rewrite Hs, Hn.
    destruct (Qeq_bool (num0 (JStr a) * 12) 0) eqn:E.
    + apply Qeq_bool_iff in E. assert (Hz : num0 (JStr a) == 0) by nra.
      rewrite Hz. field.
    + field.
  - intros Hf. rewrite Hf.
    replace (truthy (JStr "weekly")) with true by reflexivity.
    replace (js_str_eq (JStr "weekly") "annual") with false by reflexivity.
    replace (js_str_eq (JStr "weekly") "monthly") with false by reflexivity.
    replace (js_str_eq (JStr "weekly") "weekly") with true by reflexivity.
    cbv beta iota.
    rewrite Hpay, obj_get_set_same, !Hget by reflexivity. rewrite Hs, Hn.
    destruct (Qeq_bool (num0 (JStr a) * 52) 0) eqn:E.
    + apply Qeq_bool_iff in E. assert (Hz : num0 (JStr a) == 0) by nra.
      rewrite Hz. field.
    + field.
  - intros Hf.
    assert (Hfr : (if truthy (obj_get "salary_frequency" o) then obj_get "salary_frequency" o
                   else JStr "annual") = JStr "annual")
      by (destruct Hf as [-> | [-> | ->]]; reflexivity).
    rewrite Hfr.
    replace (js_str_eq (JStr "annual") "annual") with true by reflexivity.
    cbv beta iota.
    rewrite Hpay, obj_get_set_same, !Hget by reflexivity. rewrite Hs, Hn.
    destruct (Qeq_bool (num0 (JStr a)) 0) eqn:E.
    + apply Qeq_bool_iff in E. rewrite E. field.
    + field.
Qed.

(** With no down-payment adjustment (an empty field, i.e. [0], or the
    default [3]) the quick-adjustment calculator returns the same maximum
    price and PITI as the main [calculateMaxPurchase] for the same rate,
    taxes, insurance and HOA. *)
Theorem adjusted_matches_default (inc debts t : Q) (rate taxes ins hoa : jsval) (d : Q)
    (Hd : d == 0 \/ d == 3) :
  let adj := calculateMaxPurchaseAdjusted inc debts t (num_or 7.0 rate) (num0 taxes)
               (num0 ins) (num0 hoa) d in
  let cli := client_calculateMaxPurchase inc debts t rate taxes ins hoa in
  fst adj == fst cli /\ snd adj == snd cli.
Proof.
  cbv zeta. unfold calculateMaxPurchaseAdjusted, client_calculateMaxPurchase. cbv zeta.
  destruct (Qle_bool inc 0); [split; reflexivity |].
  match goal with |- context [if ?c then _ else _] => destruct c end;
    [split; reflexivity |].
  cbn [fst snd]. split; [| reflexivity].
  assert (Hdd : (if Qeq_bool d 0 then 3 else d) == 3).
  { destruct (Qeq_bool d 0) eqn:E; [reflexivity |].
    destruct Hd as [Hd | Hd]; [| exact Hd].
    apply Qeq_bool_iff in Hd. congruence. }
  rewrite Hdd. reflexivity.
Qed.

(** A larger down-payment percentage (strictly between 0 and 100) never
    lowers the adjusted maximum price, which is never negative. *)
Theorem adjusted_down_payment_monotone (inc debts t r taxes ins hoa d1 d2 : Q)
    (H1 : 0 < d1) (H12 : d1 <= d2) (H2 : d2 < 100) :
  0 <= fst (calculateMaxPurchaseAdjusted inc debts t r taxes ins hoa d1) /\
  fst (calculateMaxPurchaseAdjusted inc debts t r taxes ins hoa d1) <=
  fst (calculateMaxPurchaseAdjusted inc debts t r taxes ins hoa d2).
Proof.
  unfold calculateMaxPurchaseAdjusted. cbv zeta.
  destruct (Qle_bool inc 0); [cbn; split; lra |].
  destruct (Qle_bool (inc * t / 100 - debts - taxes / 12 - ins / 12 - hoa) 0) eqn:Ep;
    [cbn; split; lra |].
  destruct (Qle_bool (r / 100 / 12) 0) eqn:Er; [cbn; split; lra |].
  cbn [orb fst].
  apply Qle_bool_false in Ep, Er.
  set (P := inc * t / 100 - debts - taxes / 12 - ins / 12 - hoa) in *.
  set (m := r / 100 / 12) in *.
  pose proof (loan_factor_pos m Er) as HF.
  set (F := ((1 + m) ^ numPayments - 1) / (m * (1 + m) ^ numPayments)) in *.
  assert (HL : 0 < P * F) by (apply Qmult_lt_0_compat; assumption).
  assert (HLe : P * ((1 + m) ^ numPayments - 1) / (m * (1 + m) ^ numPayments) == P * F)
    by (unfold F, Qdiv; ring).
  rewrite HLe.
  assert (E1 : Qeq_bool d1 0 = false)
    by (destruct (Qeq_bool d1 0) eqn:E; [apply Qeq_bool_iff in E; lra | reflexivity]).
  assert (E2 : Qeq_bool d2 0 = false)
    by (destruct (Qeq_bool d2 0) eqn:E; [apply Qeq_bool_iff in E; lra | reflexivity]).
  rewrite E1, E2.
  assert (D1 : 0 < 1 - d1 / 100) by (assert (d1 / 100 < 1) by (apply Qlt_shift_div_r; lra); lra).
  assert (D2 : 0 < 1 - d2 / 100) by (assert (d2 / 100 < 1) by (apply Qlt_shift_div_r; lra); lra).
  assert (D12 : 1 - d2 / 100 <= 1 - d1 / 100).
  { assert (d1 / 100 <= d2 / 100) by (apply Qmult_le_compat_r; [lra | apply Qinv_le_0_compat; lra]).
    lra. }
  split.
  - apply Qlt_le_weak. apply Qlt_shift_div_l; lra.
  - apply Qle_shift_div_l; [exact D2 |].
    assert (HX : 0 < P * F / (1 - d1 / 100)) by (apply Qlt_shift_div_l; lra).
    assert (HA : P * F / (1 - d1 / 100) * (1 - d1 / 100) == P * F)
      by (field; intros Hz; lra).
    set (X := P * F / (1 - d1 / 100)) in *. nra.
Qed.

(** The monthly figure of a salaried employer block and the income the
    collected block contributes agree: for the frequencies the form offers
    (or none), [calculateEmployerIncome] of the collected object is the
    figure of the salary branch of [updateEmployerMonthlyCalcs] plus
    overtime, bonus and commission.  This holds with the "salary" button
    active and also with no active button, which [collectEmployerData]
    collects as salaried. *)
Theorem salary_display_matches_income (inputs : list emp_input) (active : option string)
    (a : string)
    (Hact : active = None \/ active = Some "salary"%string)
    (Ha : obj_get "salary_amount" (read_emp_inputs inputs) = JStr a)
    (Hne : a <> EmptyString)
    (Hf : In (obj_get "salary_frequency" (read_emp_inputs inputs))
             [JStr "annual"; JStr "monthly"; JStr "weekly"; JUndefined; JStr EmptyString]) :
  calculateEmployerIncome (employer_of_object (collectEmployerBlock inputs active)) ==
  salaryMonthlyCalc (JStr a) (obj_get "salary_frequency" (read_emp_inputs inputs))
  + num0 (obj_get "overtime_monthly" (read_emp_inputs inputs))
  + num0 (obj_get "bonus_monthly" (read_emp_inputs inputs))
  + num0 (obj_get "commission_monthly" (read_emp_inputs inputs)).
Proof.
  destruct (salary_block_cases inputs active a Hact Ha Hne) as (Hm & Hw & Hy).
  cbv zeta in Hm, Hw, Hy.
  destruct Hf as [Hf | [Hf | [Hf | [Hf | [Hf | []]]]]]; rewrite <- Hf.
  - rewrite Hy by (left; symmetry; exact Hf).
    change (salaryMonthlyCalc (JStr a) (JStr "annual")) with (num0 (JStr a) / 12). ring.
  - rewrite Hm by (symmetry; exact Hf).
    change (salaryMonthlyCalc (JStr a) (JStr "monthly")) with (num0 (JStr a)). ring.
  - rewrite Hw by (symmetry; exact Hf).
    change (salaryMonthlyCalc (JStr a) (JStr "weekly")) with (num0 (JStr a) * 52 / 12). ring.
  - rewrite Hy by (right; left; symmetry; exact Hf).
    change (salaryMonthlyCalc (JStr a) JUndefined) with (num0 (JStr a) / 12). ring.
  - rewrite Hy by (right; right; symmetry; exact Hf).
    change (salaryMonthlyCalc (JStr a) (JStr EmptyString)) with (num0 (JStr a) / 12). ring.
Qed.

(** For a purchase, the loan amount and LTV shown on the form are the
    server's, clamped at zero: the client never shows a negative loan or
    LTV, and shows the server's figures whenever the down payment does not
    exceed the price. *)
Theorem client_purchase_loan_clamps_server (b : borrower) (purpose : string)
    (Hp : String.eqb purpose "Refinance" = false) :
  let m := calculateBorrowerMetrics b in
  let sizing := client_loan_sizing purpose (property_value b) (current_loan_balance b)
                  (cash_out_amount b) (purchase_price b) (down_payment_amount b) in
  fst sizing == Qmax 0 (loanAmount m) /\ snd sizing == Qmax 0 (ltv m).
Proof.
  cbv zeta. destruct (loan_fields b) as [Hl Hv]. cbv zeta in Hl, Hv. rewrite Hl, Hv.
  unfold client_loan_sizing. rewrite Hp. cbn [fst snd].
  split; [reflexivity |].
  set (p := num0 (purchase_price b)). set (d := num0 (down_payment_amount b)).
  destruct (Qpos_bool p) eqn:E; [| rewrite Q.max_id; reflexivity].
  apply Qpos_bool_true in E.
  destruct (Qlt_le_dec 0 (p - d)) as [Hge | Hle].
  2:{ rewrite (Q.max_l 0 (p - d)) by exact Hle.
    rewrite (Q.max_l 0 ((p - d) / p * 100)).
    + unfold Qdiv. ring.
    + assert ((p - d) / p <= 0) by (apply Qle_shift_div_r; lra). lra. }
  - apply Qlt_le_weak in Hge. rewrite (Q.max_r 0 (p - d)) by exact Hge.
    rewrite (Q.max_r 0 ((p - d) / p * 100)); [reflexivity |].
    assert (0 <= (p - d) / p) by (apply Qle_shift_div_l; lra). lra.
Qed.

(** On the summary card of the quick adjustments, the LTV of a positive
    home price is the complement of the down-payment percentage. *)
Theorem quick_ltv_complement (homePrice downPaymentPct rate taxesAnnual hoiAnnual
    hoaMonthly monthlyIncome monthlyDebts : Q) (Hh : 0 < homePrice) :
  qLTV (quickNumbers homePrice downPaymentPct rate taxesAnnual hoiAnnual hoaMonthly
          monthlyIncome monthlyDebts) == 100 - downPaymentPct.
Proof.
  unfold quickNumbers. cbn [qLTV].
  assert (E : Qpos_bool homePrice = true) by (apply Qpos_bool_true; exact Hh).
  rewrite E. field. lra.
Qed.

(** ** XML escaping *)

Lemma escapeXml_cons (x : ascii) (t : string) :
  escapeXml (String x t) = (escape_char x ++ escapeXml t)%string.
Proof.
  unfold escapeXml, escape_char.
  repeat (cbn [replace_all_char append];
          match goal with
          | |- context [Ascii.eqb x ?c] => let E := fresh "E" in destruct (Ascii.eqb x c) eqn:E
          end);
  reflexivity.
Qed.

Lemma str_has_app (c : ascii) (s1 s2 : string) :
  str_has c (s1 ++ s2) = str_has c s1 || str_has c s2.
Proof.
  induction s1 as [| x t IH]; cbn; [reflexivity |]. rewrite IH, orb_assoc. reflexivity.
Qed.

Lemma unescape_escape_char (x : ascii) (r : string) :
  xml_unescape (escape_char x ++ r) = String x (xml_unescape r).
Proof.
  unfold escape_char.
  destruct (Ascii.eqb x "&"%char) eqn:E1;
    [apply Ascii.eqb_eq in E1; subst x; reflexivity |].
  destruct (Ascii.eqb x "<"%char) eqn:E2;
    [apply Ascii.eqb_eq in E2; subst x; reflexivity |].
  destruct (Ascii.eqb x ">"%char) eqn:E3;
    [apply Ascii.eqb_eq in E3; subst x; reflexivity |].
  destruct (Ascii.eqb x dquote) eqn:E4;
    [apply Ascii.eqb_eq in E4; subst x; reflexivity |].
  destruct (Ascii.eqb x "'"%char) eqn:E5;
    [apply Ascii.eqb_eq in E5; subst x; reflexivity |].
  cbn [append xml_unescape]. rewrite E1. reflexivity.
Qed.

(** [escapeXml] loses nothing: decoding the five entities gives back the
    original text, so an [&] already in the input is escaped once and
    the later replacements never rewrite the entities written by the
    earlier ones. *)
Theorem escapeXml_roundtrip (s : string) : xml_unescape (escapeXml s) = s.
Proof.
  induction s as [| x t IH]; [reflexivity |].
  rewrite escapeXml_cons, unescape_escape_char, IH. reflexivity.
Qed.

(** The output of [escapeXml] contains no [<], [>], double quote or
    single quote, whatever the input. *)
Theorem escapeXml_no_markup (s : string) (c : ascii) :
  In c ["<"%char; ">"%char; dquote; "'"%char] -> str_has c (escapeXml s) = false.
Proof.
  intros Hc. induction s as [| x t IH]; [reflexivity |].
  rewrite escapeXml_cons, str_has_app, IH, orb_false_r.
  unfold escape_char.
  destruct (Ascii.eqb x "&"%char) eqn:E1;
    [destruct Hc as [<- | [<- | [<- | [<- | []]]]]; reflexivity |].
  destruct (Ascii.eqb x "<"%char) eqn:E2;
    [destruct Hc as [<- | [<- | [<- | [<- | []]]]]; reflexivity |].
  destruct (Ascii.eqb x ">"%char) eqn:E3;
    [destruct Hc as [<- | [<- | [<- | [<- | []]]]]; reflexivity |].
  destruct (Ascii.eqb x dquote) eqn:E4;
    [destruct Hc as [<- | [<- | [<- | [<- | []]]]]; reflexivity |].
  destruct (Ascii.eqb x "'"%char) eqn:E5;
    [destruct Hc as [<- | [<- | [<- | [<- | []]]]]; reflexivity |].
  cbn [str_has]. rewrite orb_false_r.
  destruct Hc as [<- | [<- | [<- | [<- | []]]]]; assumption.
Qed.

(** ** Currency display *)

Lemma strip_list (l : list ascii) :
  strip_currency (string_of_list_ascii l) = string_of_list_ascii (filter keep_char l).
Proof.
  induction l as [| c l IH]; [reflexivity |]. cbn [string_of_list_ascii strip_currency filter].
  unfold keep_char. destruct (Ascii.eqb c "$"%char || Ascii.eqb c ","%char); cbn; rewrite IH; reflexivity.
Qed.

Lemma filter_rev_comm {A} (f : A -> bool) (l : list A) : filter f (rev l) = rev (filter f l).
Proof.
  induction l as [| x l IH]; [reflexivity |]. cbn [rev]. rewrite filter_app, IH.
  cbn [filter]. destruct (f x); cbn; [reflexivity | apply app_nil_r].
Qed.

Lemma digit_cases (d : Z) : (0 <= d < 10)%Z ->
  d = 0%Z \/ d = 1%Z \/ d = 2%Z \/ d = 3%Z \/ d = 4%Z \/ d = 5%Z \/ d = 6%Z \/ d = 7%Z
  \/ d = 8%Z \/ d = 9%Z.
Proof. lia. Qed.

Ltac digit_case H :=
  destruct H as (d & Hd & ->);
  destruct (digit_cases d Hd) as [-> | [-> | [-> | [-> | [-> | [-> | [-> | [-> | [-> | ->]]]]]]]]].

Lemma digit_kept (c : ascii) : is_digit_char c -> keep_char c = true.
Proof. intros H. digit_case H; reflexivity. Qed.

Lemma digit_value_char (d : Z) : (0 <= d < 10)%Z -> digit_value (digit_char d) = Some d.
Proof.
  intros Hd. destruct (digit_cases d Hd) as [-> | [-> | [-> | [-> | [-> | [-> | [-> | [-> | [-> | ->]]]]]]]]];
    reflexivity.
Qed.

Lemma filter_group (k : nat) (ds : list ascii) :
  Forall is_digit_char ds -> filter keep_char (group_rev k ds) = ds.
Proof.
  revert k. induction ds as [| d ds IH]; intros k H; [reflexivity |].
  inversion H as [| ? ? Hd Hds]; subst.
  cbn [group_rev]. destruct (Nat.eqb k 3); cbn [filter];
    [change (keep_char ","%char) with false |]; rewrite (digit_kept d Hd), IH by exact Hds;
    reflexivity.
Qed.

Lemma rev_digits_digits (f : nat) (n : Z) : Forall is_digit_char (rev_digits f n).
Proof.
  revert n. induction f as [| f IH]; intros n; [constructor |].
  cbn [rev_digits]. constructor.
  - exists (n mod 10)%Z. split; [apply Z.mod_pos_bound; lia | reflexivity].
  - destruct (Z.eqb (n / 10) 0); [constructor | apply IH].
Qed.

Lemma take_digits_app (l : list ascii) (s : string) (acc : Z) (len : nat) :
  Forall is_digit_char l ->
  take_digits (string_of_list_ascii l ++ s) acc len
  = take_digits s (fold_left digit_step l acc) (len + length l).
Proof.
  revert acc len. induction l as [| c l IH]; intros acc len H.
  - cbn. rewrite Nat.add_0_r. reflexivity.
  - inversion H as [| ? ? Hc Hl]; subst.
    destruct Hc as (d & Hd & ->).
    cbn [string_of_list_ascii append take_digits fold_left length].
    unfold digit_step at 2. rewrite (digit_value_char d Hd), IH by exact Hl.
    rewrite Nat.add_succ_r. reflexivity.
Qed.

Lemma rev_digits_value (f : nat) (n : Z) :
  (0 <= n)%Z -> (Z.to_nat n < f)%nat ->
  fold_left digit_step (rev (rev_digits f n)) 0%Z = n /\ rev_digits f n <> [].
Proof.
  revert n. induction f as [| f IH]; intros n Hn Hf; [lia |].
  cbn [rev_digits]. split; [| discriminate].
  pose proof (Z.div_mod n 10 ltac:(lia)) as Hdm.
  pose proof (Z.mod_pos_bound n 10 ltac:(lia)) as Hm.
  destruct (Z.eqb (n / 10) 0) eqn:Eq.
  - apply Z.eqb_eq in Eq. cbn [rev app fold_left]. unfold digit_step.
    rewrite digit_value_char by exact Hm. lia.
  - apply Z.eqb_neq in Eq.
    assert (Hq : (0 <= n / 10)%Z) by (apply Z.div_pos; lia).
    assert (Hlt : (n / 10 < n)%Z) by (apply Z.div_lt; lia).
    destruct (IH (n / 10)%Z Hq ltac:(lia)) as [IHv _].
    cbn [rev]. rewrite fold_left_app, IHv. cbn [fold_left]. unfold digit_step.
    rewrite digit_value_char by exact Hm. lia.
Qed.

Lemma rev_app_last_digit (f : nat) (n : Z) :
  (Z.to_nat n < f)%nat ->
  exists c l, rev (rev_digits f n) = c :: l /\ is_digit_char c.
Proof.
  intros Hf.
  pose proof (rev_digits_digits f n) as HF.
  destruct (rev (rev_digits f n)) as [| c l] eqn:E.
  - destruct f; [lia |]. cbn [rev_digits] in E. apply app_eq_nil in E. destruct E as [_ E]. discriminate.
  - exists c, l. split; [reflexivity |].
    apply Forall_rev in HF. rewrite E in HF. inversion HF; assumption.
Qed.

Lemma append_empty (s : string) : (s ++ EmptyString)%string = s.
Proof. induction s as [| c s IH]; cbn; [reflexivity | rewrite IH; reflexivity]. Qed.

(** Parsing the digits written for [n >= 0]. *)
Lemma parse_digits (n : Z) :
  (0 <= n)%Z ->
  let l := rev (rev_digits (S (Z.to_nat n)) n) in
  take_digits (string_of_list_ascii l) 0%Z 0%nat = (n, length l, EmptyString)
  /\ length l <> 0%nat.
Proof.
  intros Hn l.
  assert (Hd : Forall is_digit_char l) by (apply Forall_rev, rev_digits_digits).
  destruct (rev_digits_value (S (Z.to_nat n)) n Hn ltac:(lia)) as [Hv Hne].
  pose proof (take_digits_app l EmptyString 0%Z 0%nat Hd) as T.
  rewrite append_empty in T. rewrite T. fold l in Hv. rewrite Hv. cbn [take_digits Nat.add].
  split; [reflexivity |].
  unfold l. rewrite length_rev.
  destruct (rev_digits (S (Z.to_nat n)) n); [contradiction | discriminate].
Qed.

Lemma digit_not_sign (c : ascii) (r : string) : is_digit_char c ->
  skip_spaces (String c r) = String c r /\ take_sign (String c r) = (1%Z, String c r).
Proof. intros H. digit_case H; split; reflexivity. Qed.

Lemma falsy_zero (q : Q) : (if Qeq_bool q 0 then 0 else q) == q.
Proof.
  destruct (Qeq_bool q 0) eqn:E; [apply Qeq_bool_iff in E; rewrite E; reflexivity | reflexivity].
Qed.

(** What [updateAllCalculations] reads back from a figure written with
    [formatCurrency] is the figure rounded to the nearest dollar, for
    every amount, negative ones included. *)
Theorem currency_roundtrip (x : Q) :
  parseCurrency (formatCurrency x) == inject_Z (js_round x).
Proof.
  unfold parseCurrency, formatCurrency, toLocaleString_int.
  set (z := js_round x).
  set (n := Z.abs z).
  assert (Hn : (0 <= n)%Z) by (apply Z.abs_nonneg).
  set (l := rev (rev_digits (S (Z.to_nat n)) n)).
  assert (Hs : strip_currency (string_of_list_ascii (rev (group_rev 0 (rev_digits (S (Z.to_nat n)) n))))
               = string_of_list_ascii l).
  { rewrite strip_list, filter_rev_comm, filter_group by apply rev_digits_digits. reflexivity. }
  destruct (parse_digits n Hn) as [Ht Hlen]. fold l in Ht, Hlen.
  destruct (rev_app_last_digit (S (Z.to_nat n)) n ltac:(lia)) as (c & l' & El & Hc).
  fold l in El.
  unfold num0, num_or. cbn [parseFloat].
  destruct (Z.ltb z 0) eqn:Ez.
  - apply Z.ltb_lt in Ez.
    cbn [strip_currency]. change (Ascii.eqb "$"%char "$"%char || Ascii.eqb "$"%char ","%char) with true.
    cbv iota. cbn [strip_currency].
    change (Ascii.eqb "-"%char "$"%char || Ascii.eqb "-"%char ","%char) with false.
    cbv iota. rewrite Hs. unfold parse_decimal.
    change (skip_spaces (String "-" (string_of_list_ascii l)))
      with (String "-" (string_of_list_ascii l)).
    change (take_sign (String "-" (string_of_list_ascii l))) with ((-1)%Z, string_of_list_ascii l).
    cbv iota beta. rewrite Ht. cbv iota beta.
    destruct (Nat.eqb (length l) 0) eqn:E0; [apply Nat.eqb_eq in E0; contradiction |].
    rewrite falsy_zero, <- inject_Z_mult, inject_Z_injective. unfold n. lia.
  - apply Z.ltb_ge in Ez.
    cbn [strip_currency]. change (Ascii.eqb "$"%char "$"%char || Ascii.eqb "$"%char ","%char) with true.
    cbv iota. rewrite Hs. unfold parse_decimal.
    rewrite El in Ht, Hlen |- *. cbn [string_of_list_ascii] in Ht |- *.
    destruct (digit_not_sign c (string_of_list_ascii l') Hc) as [S1 S2].
    rewrite S1, S2. cbv iota beta. rewrite Ht. cbv iota beta.
    destruct (Nat.eqb (length (c :: l')) 0) eqn:E0; [apply Nat.eqb_eq in E0; contradiction |].
    rewrite falsy_zero, <- inject_Z_mult, inject_Z_injective. unfold n. lia.
Qed.

(** ** Witnesses of the further properties *)

Lemma server_tiers_monotone_witness :
  num0 (down_payment_amount sample_purchase) < num0 (purchase_price sample_purchase) /\
  (let m := calculateBorrowerMetrics sample_purchase in
   0 <= maxPurchase43 m /\ maxPurchase43 m <= maxPurchase45 m /\
   maxPurchase45 m <= maxPurchase50 m).
Proof.
  assert (H : num0 (down_payment_amount sample_purchase) < num0 (purchase_price sample_purchase))
    by (vm_compute; reflexivity).
  split; [exact H | exact (server_tiers_monotone sample_purchase (or_intror H))].
Defined.

Lemma client_max_purchase_monotone_witness :
  43 <= 50 /\
  0 <= fst (client_calculateMaxPurchase 10000 500 43 (JStr "6.25") (JStr "4800")
              (JStr "1500") (JStr "50")) /\
  fst (client_calculateMaxPurchase 10000 500 43 (JStr "6.25") (JStr "4800")
         (JStr "1500") (JStr "50")) <=
  fst (client_calculateMaxPurchase 10000 500 50 (JStr "6.25") (JStr "4800")
         (JStr "1500") (JStr "50")).
Proof.
  assert (H : 43 <= 50) by (vm_compute; discriminate).
  split; [exact H |].
  exact (client_max_purchase_monotone 10000 500 43 50 (JStr "6.25") (JStr "4800")
           (JStr "1500") (JStr "50") H).
Defined.

Lemma max_price_piti_roundtrip_witness :
  0 < fst (client_calculateMaxPurchase 10000 500 43 (interest_rate sample_purchase)
             (property_taxes_annual sample_purchase) (insurance_annual sample_purchase)
             (hoa_monthly sample_purchase)) /\
  (let price := fst (client_calculateMaxPurchase 10000 500 43 (interest_rate sample_purchase)
                       (property_taxes_annual sample_purchase)
                       (insurance_annual sample_purchase) (hoa_monthly sample_purchase)) in
   let bought := set_field (set_field sample_purchase FPurchasePrice (JNum price))
                   FDownPayment (JNum (price * 0.03)) in
   totalPITI (calculateBorrowerMetrics bought) ==
   snd (client_calculateMaxPurchase 10000 500 43 (interest_rate sample_purchase)
          (property_taxes_annual sample_purchase) (insurance_annual sample_purchase)
          (hoa_monthly sample_purchase))).
Proof.
  assert (H : 0 < fst (client_calculateMaxPurchase 10000 500 43 (interest_rate sample_purchase)
                         (property_taxes_annual sample_purchase)
                         (insurance_annual sample_purchase) (hoa_monthly sample_purchase)))
    by (pose proof (client_max_purchase_eq 10000 500 43 (interest_rate sample_purchase)
                      (property_taxes_annual sample_purchase) (insurance_annual sample_purchase)
                      (hoa_monthly sample_purchase) ltac:(vm_compute; reflexivity)
                      ltac:(vm_compute; reflexivity) ltac:(vm_compute; reflexivity)) as E;
        pose proof (loan_factor_pos (num_or 7.0 (interest_rate sample_purchase) / 100 / 12)
                      ltac:(vm_compute; reflexivity)) as HF;
        match type of E with
        | _ == ?P * ?F =>
            assert (V : P == 4300 - 500 - 400 - 125 - 50) by (vm_compute; reflexivity);
            rewrite V in E; set (G := F) in *
        end;
        lra).
  split; [exact H | exact (max_price_piti_roundtrip sample_purchase 10000 500 43 H)].
Defined.

Lemma payment_exceeds_interest_witness :
  0 < loanAmount (calculateBorrowerMetrics sample_purchase) /\
  0 < num_or 7.0 (interest_rate sample_purchase) / 100 / 12 /\
  loanAmount (calculateBorrowerMetrics sample_purchase)
    * (num_or 7.0 (interest_rate sample_purchase) / 100 / 12)
  < principalAndInterest (calculateBorrowerMetrics sample_purchase).
Proof.
  assert (Hl : 0 < loanAmount (calculateBorrowerMetrics sample_purchase))
    by (vm_compute; reflexivity).
  assert (Hr : 0 < num_or 7.0 (interest_rate sample_purchase) / 100 / 12)
    by (vm_compute; reflexivity).
  exact (conj Hl (conj Hr (payment_exceeds_interest sample_purchase Hl Hr))).
Defined.

Lemma ltv_plus_down_share_witness :
  0 < num0 (purchase_price sample_purchase) /\
  ltv (calculateBorrowerMetrics sample_purchase)
    + num0 (down_payment_amount sample_purchase) / num0 (purchase_price sample_purchase) * 100
  == 100.
Proof.
  assert (H : 0 < num0 (purchase_price sample_purchase)) by (vm_compute; reflexivity).
  split; [exact H | exact (ltv_plus_down_share sample_purchase H)].
Defined.

Lemma salary_display_matches_income_witness :
  obj_get "salary_amount" (read_emp_inputs sample_salary_inputs) = JStr "5000" /\
  In (obj_get "salary_frequency" (read_emp_inputs sample_salary_inputs))
     [JStr "annual"; JStr "monthly"; JStr "weekly"; JUndefined; JStr EmptyString] /\
  calculateEmployerIncome
    (employer_of_object (collectEmployerBlock sample_salary_inputs None)) ==
  salaryMonthlyCalc (JStr "5000")
    (obj_get "salary_frequency" (read_emp_inputs sample_salary_inputs))
  + num0 (obj_get "overtime_monthly" (read_emp_inputs sample_salary_inputs))
  + num0 (obj_get "bonus_monthly" (read_emp_inputs sample_salary_inputs))
  + num0 (obj_get "commission_monthly" (read_emp_inputs sample_salary_inputs)).
Proof.
  assert (Ha : obj_get "salary_amount" (read_emp_inputs sample_salary_inputs) = JStr "5000")
    by reflexivity.
  assert (Hf : In (obj_get "salary_frequency" (read_emp_inputs sample_salary_inputs))
                 [JStr "annual"; JStr "monthly"; JStr "weekly"; JUndefined; JStr EmptyString])
    by (right; left; reflexivity).
  assert (Hne : "5000"%string <> EmptyString) by discriminate.
  exact (conj Ha (conj Hf (salary_display_matches_income sample_salary_inputs None "5000"
                             (or_introl eq_refl) Ha Hne Hf))).
Defined.

Lemma adjusted_matches_default_witness :
  0 == 0 /\
  fst (calculateMaxPurchaseAdjusted 10000 500 43 (num_or 7.0 (JStr "6.25")) (num0 (JStr "4800"))
         (num0 (JStr "1500")) (num0 (JStr "50")) 0) ==
  fst (client_calculateMaxPurchase 10000 500 43 (JStr "6.25") (JStr "4800") (JStr "1500")
         (JStr "50")) /\
  snd (calculateMaxPurchaseAdjusted 10000 500 43 (num_or 7.0 (JStr "6.25")) (num0 (JStr "4800"))
         (num0 (JStr "1500")) (num0 (JStr "50")) 0) ==
  snd (client_calculateMaxPurchase 10000 500 43 (JStr "6.25") (JStr "4800") (JStr "1500")
         (JStr "50")).
Proof.
  assert (H : 0 == 0) by reflexivity.
  split; [exact H |].
  exact (adjusted_matches_default 10000 500 43 (JStr "6.25") (JStr "4800") (JStr "1500")
           (JStr "50") 0 (or_introl H)).
Defined.

Lemma adjusted_down_payment_monotone_witness :
  0 < 5 /\ 5 <= 20 /\ 20 < 100 /\
  0 <= fst (calculateMaxPurchaseAdjusted 10000 500 43 6.25 4800 1500 50 5) /\
  fst (calculateMaxPurchaseAdjusted 10000 500 43 6.25 4800 1500 50 5) <=
  fst (calculateMaxPurchaseAdjusted 10000 500 43 6.25 4800 1500 50 20).
Proof.
  assert (H1 : 0 < 5) by (vm_compute; reflexivity).
  assert (H12 : 5 <= 20) by (vm_compute; discriminate).
  assert (H2 : 20 < 100) by (vm_compute; reflexivity).
  exact (conj H1 (conj H12 (conj H2
           (adjusted_down_payment_monotone 10000 500 43 6.25 4800 1500 50 5 20 H1 H12 H2)))).
Defined.

Lemma client_purchase_loan_clamps_server_witness :
  String.eqb "Purchase" "Refinance" = false /\
  (let m := calculateBorrowerMetrics overpaid_sample in
   let sizing := client_loan_sizing "Purchase" (property_value overpaid_sample)
                   (current_loan_balance overpaid_sample) (cash_out_amount overpaid_sample)
                   (purchase_price overpaid_sample) (down_payment_amount overpaid_sample) in
   fst sizing == Qmax 0 (loanAmount m) /\ snd sizing == Qmax 0 (ltv m)).
Proof.
  assert (H : String.eqb "Purchase" "Refinance" = false) by reflexivity.
  split; [exact H | exact (client_purchase_loan_clamps_server overpaid_sample "Purchase" H)].
Defined.

Lemma quick_ltv_complement_witness :
  0 < 450000 /\
  qLTV (quickNumbers 450000 10 6.5 5400 1800 0 12000 600) == 100 - 10.
Proof.
  assert (H : 0 < 450000) by (vm_compute; reflexivity).
  split; [exact H | exact (quick_ltv_complement 450000 10 6.5 5400 1800 0 12000 600 H)].
Defined.

Lemma escapeXml_no_markup_witness :
  In "<"%char ["<"%char; ">"%char; dquote; "'"%char] /\
  str_has "<"%char (escapeXml "<loan>R&D</loan>") = false.
Proof.
  assert (H : In "<"%char ["<"%char; ">"%char; dquote; "'"%char]) by (left; reflexivity).
  split; [exact H | exact (escapeXml_no_markup "<loan>R&D</loan>" "<"%char H)].
Defined.
